(** * The deep-research chat page

    A shallow embedding of [claude_deep_research_app.py], the Streamlit page
    of the Claude 4 deep-research assistant, followed by a model of the
    tool-orchestration loop that the page calls into.

    The page is a script that Streamlit runs from top to bottom on every
    interaction.  A run reads the widgets, touches [st.session_state],
    renders elements and may call the core engines.  It ends when the
    script falls off its end, or earlier through [st.stop()], [st.rerun()]
    or an uncaught exception.  The embedding is a small monad that threads
    the session state, the [st.cache_resource] cache and the list of
    effects of the run, and that short-circuits on those three ways of
    leaving the script. *)

From stdpp Require Import base tactics option list strings gmap.
From Stdlib Require Import ZArith Lia.

Local Open Scope Z_scope.


Module App.

(** ** Data *)

(** One chat message, the dict [{"role": ..., "content": ...}]. *)
Record Message := mkMessage { role : string; content : string }.

(** Exceptions.  [ValueError] stands for every instance that an
    [except ValueError] clause catches; the other constructor carries the
    class name of anything else. *)
Inductive exn :=
| ValueError (msg : string)
| OtherError (cls msg : string).

(** [str(e)].  A [KeyError] carries the missing key, and its [str] is the
    key in quotes. *)
Definition str (e : exn) : string :=
  match e with
  | ValueError msg => msg
  | OtherError cls msg =>
      if String.eqb cls "KeyError" then "'" +:+ msg +:+ "'" else msg
  end.

(** The result of calling into code that may raise. *)
Inductive Result (A : Type) :=
| Ok (a : A)
| Raises (e : exn).
Arguments Ok {A} a.
Arguments Raises {A} e.

(** The constants the page imports from [config]. *)
Record Config := mkConfig {
  APP_TITLE : string;
  APP_CAPTION : string;
  WELCOME_MESSAGE : string;
  DEFAULT_RESEARCH_DEPTH : Z;
  DEFAULT_TIME_LIMIT : Z;
  DEFAULT_MAX_URLS : Z
}.

(** The three objects of [core] the page uses, by the methods it calls.
    [ToolDefinition] is the type of the value [get_tool_definition()]
    returns; the page only passes it on.  The constructors and
    [stream_text_response] are calls that may raise; the other methods
    are taken to return, and every method to be a function of its
    arguments. *)
Record ClientManager := mkClientManager {
  check_api_keys : gmap string bool
}.

Record ResearchEngine (ToolDefinition : Type) := mkResearchEngine {
  is_research_request : string -> bool;
  get_tool_definition : ToolDefinition
}.
Arguments mkResearchEngine {ToolDefinition} _ _.
Arguments is_research_request {ToolDefinition} _ _.
Arguments get_tool_definition {ToolDefinition} _.

(** The element [st.empty()] returns, which the chat engine writes the
    growing answer into. *)
Inductive Placeholder := EmptyElement.

Record ChatEngine (ToolDefinition : Type) := mkChatEngine {
  prepare_claude_messages : list Message -> string -> list Message;
  stream_text_response :
    list Message -> list ToolDefinition -> Placeholder -> Result string
}.
Arguments mkChatEngine {ToolDefinition} _ _.
Arguments prepare_claude_messages {ToolDefinition} _ _ _.
Arguments stream_text_response {ToolDefinition} _ _ _ _.

(** Static text blocks of the page that carry no data. *)
Inductive StaticText := FOOTER_STYLE | HOW_TO_USE | FOOTER.

(** The blocks a [with] statement enters. *)
Inductive Block :=
| Sidebar
| Container
| ChatMessage (name : string).

(** What a run does, in order: the Streamlit calls, the writes to
    [st.session_state] and the call of the chat engine. *)
Inductive Effect (ToolDefinition : Type) :=
| SetPageConfig (page_title page_icon layout : string)
| MarkdownHtml (t : StaticText)
| Markdown (body : string)
| MarkdownText (t : StaticText)
| Title (body : string)
| Caption (body : string)
| Header (body : string)
| Subheader (body : string)
| Slider (label : string) (min_value max_value value : Z) (help : string)
| Divider
| Button (label : string)
| WriteText (body : string)
| Info (body : string)
| Error (body : string)
| Empty
| ChatInput (placeholder : string)
| With (b : Block)
| SessionAssign (key : string) (value : list Message)
| SessionAppend (key : string) (m : Message)
| StreamTextResponse (messages : list Message) (tools : list ToolDefinition)
    (placeholder : Placeholder).
Arguments SetPageConfig {ToolDefinition} page_title page_icon layout.
Arguments MarkdownHtml {ToolDefinition} t.
Arguments Markdown {ToolDefinition} body.
Arguments MarkdownText {ToolDefinition} t.
Arguments Title {ToolDefinition} body.
Arguments Caption {ToolDefinition} body.
Arguments Header {ToolDefinition} body.
Arguments Subheader {ToolDefinition} body.
Arguments Slider {ToolDefinition} label min_value max_value value help.
Arguments Divider {ToolDefinition}.
Arguments Button {ToolDefinition} label.
Arguments WriteText {ToolDefinition} body.
Arguments Info {ToolDefinition} body.
Arguments Error {ToolDefinition} body.
Arguments Empty {ToolDefinition}.
Arguments ChatInput {ToolDefinition} placeholder.
Arguments With {ToolDefinition} b.
Arguments SessionAssign {ToolDefinition} key value.
Arguments SessionAppend {ToolDefinition} key m.
Arguments StreamTextResponse {ToolDefinition} messages tools placeholder.

(** How a run leaves the script early. *)
Inductive Control :=
| Stop
| Rerun
| Uncaught (e : exn).

Inductive Outcome (A : Type) :=
| Return (a : A)
| Leave (c : Control).
Arguments Return {A} a.
Arguments Leave {A} c.

Section Page.

Context {ToolDefinition : Type}.
Variable config : Config.

Abbreviation Components :=
  (ClientManager * ResearchEngine ToolDefinition * ChatEngine ToolDefinition)%type.

(** What one run reads from outside the script: the outcome of each
    constructor of [core] (consulted only when the components are not
    cached yet) and the widget values the browser reports. *)
Record Inputs := mkInputs {
  new_ClientManager : Result ClientManager;
  new_ResearchEngine : ClientManager -> Result (ResearchEngine ToolDefinition);
  new_ChatEngine :
    ClientManager -> ResearchEngine ToolDefinition ->
    Result (ChatEngine ToolDefinition);
  research_depth : Z;
  time_limit_seconds : Z;
  max_urls_value : Z;
  clear_clicked : bool;
  chat_input : option string
}.

(** What persists between runs, and the effects of the runs so far. *)
Record World := mkWorld {
  session_state : gmap string (list Message);
  cache_resource : option Components;
  effects : list (Effect ToolDefinition)
}.

(** ** The script monad *)

Definition Script (A : Type) : Type := Inputs -> World -> Outcome A * World.

#[local] Instance Script_ret : MRet Script := fun A a _ w => (Return a, w).

#[local] Instance Script_bind : MBind Script := fun A B k m i w =>
  match m i w with
  | (Return a, w') => k a i w'
  | (Leave c, w') => (Leave c, w')
  end.

Definition emit (e : Effect ToolDefinition) : Script unit := fun _ w =>
  (Return tt, mkWorld (session_state w) (cache_resource w) (effects w ++ [e])).

Definition widget {A : Type} (e : Effect ToolDefinition) (value : Inputs -> A)
  : Script A :=
  fun i w => (Return (value i),
              mkWorld (session_state w) (cache_resource w) (effects w ++ [e])).

Definition leave {A : Type} (c : Control) : Script A := fun _ w => (Leave c, w).

Definition raise {A : Type} (e : exn) : Script A := leave (Uncaught e).

(** [st.stop()] and [st.rerun()] *)
Definition st_stop {A : Type} : Script A := leave Stop.
Definition st_rerun {A : Type} : Script A := leave Rerun.

(** A call into [core]: its value, or its exception propagating. *)
Definition call {A : Type} (r : Result A) : Script A :=
  match r with
  | Ok a => mret a
  | Raises e => raise e
  end.

(** A call whose outcome is one of the run's inputs (a constructor of
    [core]). *)
Definition construct {A : Type} (new : Inputs -> Result A) : Script A :=
  fun i => call (new i) i.

(** [try: body except ValueError as e: handler(e)].  Only an exception of
    the guarded class is handled; [st.stop()] and [st.rerun()] pass. *)
Definition try_except_ValueError {A : Type}
    (body : Script A) (handler : exn -> Script A) : Script A :=
  fun i w =>
    match body i w with
    | (Leave (Uncaught (ValueError msg)), w') => handler (ValueError msg) i w'
    | r => r
    end.

(** [for x in xs: body(x)] *)
Fixpoint for_each {A : Type} (xs : list A) (body : A -> Script unit)
  : Script unit :=
  match xs with
  | [] => mret tt
  | x :: rest => body x ;; for_each rest body
  end.

(** *** [st.session_state] *)

(** ["messages" not in st.session_state] *)
Definition session_lacks (key : string) : Script bool := fun _ w =>
  (Return (bool_decide (session_state w !! key = None)), w).

(** [st.session_state.messages = value] *)
Definition session_assign (key : string) (value : list Message) : Script unit :=
  fun _ w =>
    (Return tt,
     mkWorld (<[key := value]> (session_state w)) (cache_resource w)
             (effects w ++ [SessionAssign key value])).

(** Reading [st.session_state.messages]; an absent key raises. *)
Definition session_get (key : string) : Script (list Message) := fun i w =>
  match session_state w !! key with
  | Some l => (Return l, w)
  | None => raise (OtherError "AttributeError" key) i w
  end.

(** [st.session_state.messages.append(m)] *)
Definition session_append (key : string) (m : Message) : Script unit :=
  fun i w =>
    match session_state w !! key with
    | Some l =>
        (Return tt,
         mkWorld (<[key := l ++ [m]]> (session_state w)) (cache_resource w)
                 (effects w ++ [SessionAppend key m]))
    | None => raise (OtherError "AttributeError" key) i w
    end.

(** [xs[0]] and [xs[:-1]] on lists, and [d[k]] on the key-status dict. *)
Definition first_item (xs : list Message) : Script Message :=
  match xs !! 0%nat with
  | Some m => mret m
  | None => raise (OtherError "IndexError" "list index out of range")
  end.

Definition all_but_last (xs : list Message) : list Message :=
  take (length xs - 1) xs.

Definition item (d : gmap string bool) (k : string) : Script bool :=
  match d !! k with
  | Some b => mret b
  | None => raise (OtherError "KeyError" k)
  end.

(** *** [st.cache_resource] *)

(** The decorator: a cached value is returned without running the body;
    a value the body returns is cached; a body that does not return
    leaves the cache as it was. *)
Definition st_cache_resource (body : Script Components) : Script Components :=
  fun i w =>
    match cache_resource w with
    | Some c => (Return c, w)
    | None =>
        match body i w with
        | (Return c, w') =>
            (Return c, mkWorld (session_state w') (Some c) (effects w'))
        | r => r
        end
    end.

(** ** The page *)

(** [get_core_components()] *)
Definition get_core_components : Script Components :=
  st_cache_resource
    (try_except_ValueError
       (client_manager ← construct new_ClientManager;
        research_engine ← construct (fun i => new_ResearchEngine i client_manager);
        chat_engine ←
          construct (fun i => new_ChatEngine i client_manager research_engine);
        mret (client_manager, research_engine, chat_engine))
       (fun e =>
          emit (Error ("Configuration error: " +:+ str e)) ;;
          emit (Error
            "Please set your API keys in the environment variables or .env file") ;;
          st_stop)).

(** The loop of [main] under [# Display chat history]. *)
Definition display_chat_history (messages : list Message) : Script unit :=
  for_each messages (fun message =>
    emit (With (ChatMessage (role message))) ;;
    emit (Markdown (content message))).

(** [main()] *)
Definition main : Script unit :=
  emit (SetPageConfig "Claude 4 Deep Research Assistant" "🔍" "wide") ;;
  '(client_manager, research_engine, chat_engine) ← get_core_components;
  emit (MarkdownHtml FOOTER_STYLE) ;;
  emit (Title (APP_TITLE config)) ;;
  emit (Caption (APP_CAPTION config)) ;;
  emit (With Sidebar) ;;
  emit (Header "🛠️ Settings") ;;
  emit (Subheader "Research Parameters") ;;
  max_depth ←
    widget (Slider "Research Depth" 1 10 (DEFAULT_RESEARCH_DEPTH config)
                   "Maximum number of research iterations")
           research_depth;
  time_limit ←
    widget (Slider "Time Limit (seconds)" 30 300 (DEFAULT_TIME_LIMIT config)
                   "Maximum time for research")
           time_limit_seconds;
  max_urls ←
    widget (Slider "Max URLs" 1 100 (DEFAULT_MAX_URLS config)
                   "Maximum number of URLs to analyze")
           max_urls_value;
  emit Divider ;;
  clear ← widget (Button "🗑️ Clear Chat History") clear_clicked;
  (if clear : bool
   then session_assign "messages" [] ;; st_rerun
   else mret tt) ;;
  emit Divider ;;
  emit (Subheader "💡 How to Use") ;;
  emit (MarkdownText HOW_TO_USE) ;;
  emit (Subheader "🔧 API Status") ;;
  let api_status := check_api_keys client_manager in
  anthropic ← item api_status "anthropic";
  let anthropic_key := if anthropic : bool then "✅ Connected" else "❌ Missing" in
  firecrawl ← item api_status "firecrawl";
  let firecrawl_key := if firecrawl : bool then "✅ Connected" else "❌ Missing" in
  emit (WriteText ("Anthropic: " +:+ anthropic_key)) ;;
  emit (WriteText ("Firecrawl: " +:+ firecrawl_key)) ;;
  lacks ← session_lacks "messages";
  (if lacks : bool
   then session_assign "messages" [] ;;
        session_append "messages" (mkMessage "assistant" (WELCOME_MESSAGE config))
   else mret tt) ;;
  messages ← session_get "messages";
  display_chat_history messages ;;
  user_input ←
    widget (ChatInput "Ask me anything or request deep research on a topic...")
           chat_input;
  match user_input with
  | Some user_input =>
      if bool_decide (user_input = "") then emit (MarkdownHtml FOOTER)
      else
        session_append "messages" (mkMessage "user" user_input) ;;
        emit (With (ChatMessage "user")) ;;
        emit (Markdown user_input) ;;
        messages ← session_get "messages";
        welcome ← first_item messages;
        let claude_messages :=
          prepare_claude_messages chat_engine (all_but_last messages)
                                  (content welcome) in
        let claude_messages :=
          claude_messages ++ [mkMessage "user" user_input] in
        emit (With Container) ;;
        emit (Info "🤔 **Thinking...**") ;;
        let might_need_research :=
          is_research_request research_engine user_input in
        (if might_need_research : bool
         then emit (Info
           "🔍 **This looks like a research request. I may use deep research tools...**")
         else mret tt) ;;
        emit Empty ;;
        emit (With (ChatMessage "assistant")) ;;
        response_placeholder ← widget Empty (fun _ => EmptyElement);
        let tools := [get_tool_definition research_engine] in
        emit (StreamTextResponse claude_messages tools response_placeholder) ;;
        full_response ←
          call (stream_text_response chat_engine claude_messages tools
                                     response_placeholder);
        session_append "messages" (mkMessage "assistant" full_response) ;;
        st_rerun
  | None => emit (MarkdownHtml FOOTER)
  end.

(** ** Runs of the page *)

(** The world a run leaves behind, and a sequence of runs (Streamlit runs
    the script again on every interaction, and after [st.rerun()]). *)
Definition run (i : Inputs) (w : World) : World := (main i w).2.

Definition runs (inputs : list Inputs) (w : World) : World :=
  foldl (fun w i => run i w) w inputs.

(** The effects of one run alone. *)
Definition trace (i : Inputs) (w : World) : list (Effect ToolDefinition) :=
  effects (run i (mkWorld (session_state w) (cache_resource w) [])).

(** A fresh process with a fresh browser session. *)
Definition fresh : World := mkWorld ∅ None [].

(** The persisted chat log, when the session has one. *)
Definition chat_log (w : World) : option (list Message) :=
  session_state w !! "messages".

(** ** Vocabulary for the statements *)

(** The components a run works with: the cached ones, or else what the
    three constructors give, called in the order of
    [get_core_components]. *)
Definition core_components (i : Inputs) (cache : option Components)
  : Result Components :=
  match cache with
  | Some c => Ok c
  | None =>
      match new_ClientManager i with
      | Raises e => Raises e
      | Ok client_manager =>
          match new_ResearchEngine i client_manager with
          | Raises e => Raises e
          | Ok research_engine =>
              match new_ChatEngine i client_manager research_engine with
              | Raises e => Raises e
              | Ok chat_engine => Ok (client_manager, research_engine, chat_engine)
              end
          end
      end
  end.

(** The elements the history loop renders for a list of messages. *)
Definition chat_history_elements (messages : list Message)
  : list (Effect ToolDefinition) :=
  flat_map (fun message =>
    [With (ChatMessage (role message)); Markdown (content message)]) messages.

(** The pieces of a run's trace, in the order of the script. *)
Definition page_config_elements : list (Effect ToolDefinition) :=
  [SetPageConfig "Claude 4 Deep Research Assistant" "🔍" "wide"].

Definition configuration_error_elements (msg : string)
  : list (Effect ToolDefinition) :=
  [Error ("Configuration error: " +:+ msg);
   Error "Please set your API keys in the environment variables or .env file"].

Definition controls_elements : list (Effect ToolDefinition) :=
  [MarkdownHtml FOOTER_STYLE; Title (APP_TITLE config);
   Caption (APP_CAPTION config); With Sidebar; Header "🛠️ Settings";
   Subheader "Research Parameters";
   Slider "Research Depth" 1 10 (DEFAULT_RESEARCH_DEPTH config)
          "Maximum number of research iterations";
   Slider "Time Limit (seconds)" 30 300 (DEFAULT_TIME_LIMIT config)
          "Maximum time for research";
   Slider "Max URLs" 1 100 (DEFAULT_MAX_URLS config)
          "Maximum number of URLs to analyze";
   Divider; Button "🗑️ Clear Chat History"].

Definition instructions_elements : list (Effect ToolDefinition) :=
  [Divider; Subheader "💡 How to Use"; MarkdownText HOW_TO_USE;
   Subheader "🔧 API Status"].

Definition api_status_elements (anthropic firecrawl : bool)
  : list (Effect ToolDefinition) :=
  [WriteText ("Anthropic: " +:+
     (if anthropic then "✅ Connected" else "❌ Missing"));
   WriteText ("Firecrawl: " +:+
     (if firecrawl then "✅ Connected" else "❌ Missing"))].

Definition welcome : Message :=
  mkMessage "assistant" (WELCOME_MESSAGE config).

Definition initialize_elements (log : option (list Message))
  : list (Effect ToolDefinition) :=
  match log with
  | Some _ => []
  | None => [SessionAssign "messages" []; SessionAppend "messages" welcome]
  end.

Definition chat_input_elements : list (Effect ToolDefinition) :=
  [ChatInput "Ask me anything or request deep research on a topic..."].

Definition RESEARCH_HINT : string :=
  "🔍 **This looks like a research request. I may use deep research tools...**".

Definition request_prelude (user_input : string) (might_need_research : bool)
  : list (Effect ToolDefinition) :=
  [SessionAppend "messages" (mkMessage "user" user_input);
   With (ChatMessage "user"); Markdown user_input; With Container;
   Info "🤔 **Thinking...**"] ++
  (if might_need_research then [Info RESEARCH_HINT] else []) ++
  [Empty; With (ChatMessage "assistant"); Empty].

Definition request_elements (user_input : string) (might_need_research : bool)
    (claude_messages : list Message) (tools : list ToolDefinition)
  : list (Effect ToolDefinition) :=
  request_prelude user_input might_need_research ++
  [StreamTextResponse claude_messages tools EmptyElement].

(** The result of a run in closed form, for the statements and proofs
    below; [main_unfold] shows that [main] computes exactly this. *)
Definition main_result (i : Inputs) (w : World) : Outcome unit * World :=
  let s := session_state w in
  let c := cache_resource w in
  let o := effects w ++ page_config_elements in
  match core_components i c with
  | Raises (ValueError msg) =>
      (Leave Stop, mkWorld s c (o ++ configuration_error_elements msg))
  | Raises e => (Leave (Uncaught e), mkWorld s c o)
  | Ok (client_manager, research_engine, chat_engine) =>
      let c := Some (client_manager, research_engine, chat_engine) in
      let o := o ++ controls_elements in
      if clear_clicked i
      then (Leave Rerun,
            mkWorld (<["messages" := []]> s) c
                    (o ++ [SessionAssign "messages" []]))
      else
        let o := o ++ instructions_elements in
        match check_api_keys client_manager !! "anthropic" with
        | None =>
            (Leave (Uncaught (OtherError "KeyError" "anthropic")), mkWorld s c o)
        | Some anthropic =>
        match check_api_keys client_manager !! "firecrawl" with
        | None =>
            (Leave (Uncaught (OtherError "KeyError" "firecrawl")), mkWorld s c o)
        | Some firecrawl =>
            let log := default [welcome] (s !! "messages") in
            let o := o ++ api_status_elements anthropic firecrawl ++
                     initialize_elements (s !! "messages") ++
                     chat_history_elements log ++ chat_input_elements in
            let idle :=
              (Return tt,
               mkWorld (<["messages" := log]> s) c (o ++ [MarkdownHtml FOOTER])) in
            match chat_input i with
            | None => idle
            | Some user_input =>
                if bool_decide (user_input = "") then idle
                else
                  let user := mkMessage "user" user_input in
                  let claude_messages :=
                    prepare_claude_messages chat_engine log
                      (content (default user (head log))) ++ [user] in
                  let tools := [get_tool_definition research_engine] in
                  let o := o ++
                    request_elements user_input
                      (is_research_request research_engine user_input)
                      claude_messages tools in
                  match stream_text_response chat_engine claude_messages tools
                                             EmptyElement with
                  | Raises e =>
                      (Leave (Uncaught e),
                       mkWorld (<["messages" := log ++ [user]]> s) c o)
                  | Ok full_response =>
                      let answer := mkMessage "assistant" full_response in
                      (Leave Rerun,
                       mkWorld (<["messages" := log ++ [user; answer]]> s) c
                               (o ++ [SessionAppend "messages" answer]))
                  end
            end
        end
        end
  end.

(** The same inputs with other slider positions. *)
Definition with_sliders (depth time urls : Z) (i : Inputs) : Inputs :=
  mkInputs (new_ClientManager i) (new_ResearchEngine i) (new_ChatEngine i)
           depth time urls (clear_clicked i) (chat_input i).

(** The same research engine with another decider. *)
Definition with_decider (decide_research : string -> bool)
    (research_engine : ResearchEngine ToolDefinition)
  : ResearchEngine ToolDefinition :=
  mkResearchEngine decide_research (get_tool_definition research_engine).

(** The calls of the chat engine among some effects, with the messages
    and the tool list each was given. *)
Definition engine_calls (es : list (Effect ToolDefinition))
  : list (list Message * list ToolDefinition) :=
  flat_map (fun e =>
    match e with
    | StreamTextResponse messages tools _ => [(messages, tools)]
    | _ => []
    end) es.

(** Some effects without the research hint. *)
Definition is_research_hint (e : Effect ToolDefinition) : bool :=
  match e with
  | Info body => String.eqb body RESEARCH_HINT
  | _ => false
  end.

Definition without_hint (es : list (Effect ToolDefinition))
  : list (Effect ToolDefinition) :=
  List.filter (fun e => negb (is_research_hint e)) es.

(** The roles the page itself writes. *)
Definition chat_role (m : Message) : Prop :=
  role m = "user" \/ role m = "assistant".

(** What one run may add at the end of the log: nothing, the user's
    input, or the user's input and the assistant's answer. *)
Inductive exchange : list Message -> Prop :=
| no_exchange : exchange []
| unanswered (user_input : string) : exchange [mkMessage "user" user_input]
| answered (user_input full_response : string) :
    exchange [mkMessage "user" user_input;
              mkMessage "assistant" full_response].

(** How one run may change the log: not at all, to the empty list, or by
    an exchange added to the log it found, which is the welcome message
    alone when the session had no log. *)
Inductive log_step : option (list Message) -> option (list Message) -> Prop :=
| log_kept (log : option (list Message)) : log_step log log
| log_cleared (log : option (list Message)) : log_step log (Some [])
| log_grown (log : option (list Message)) (tail : list Message) :
    exchange tail ->
    log_step log
      (Some (default [welcome] log ++ tail)).

(** The session state after the writes among some effects. *)
Definition apply_write (s : gmap string (list Message))
    (e : Effect ToolDefinition) : gmap string (list Message) :=
  match e with
  | SessionAssign key value => <[key := value]> s
  | SessionAppend key m =>
      match s !! key with
      | Some l => <[key := l ++ [m]]> s
      | None => s
      end
  | _ => s
  end.

Definition apply_writes (es : list (Effect ToolDefinition))
    (s : gmap string (list Message)) : gmap string (list Message) :=
  foldl apply_write s es.

(** Effects that take a request from the user: the chat input being
    rendered, and the chat engine being called. *)
Definition serves_user (e : Effect ToolDefinition) : bool :=
  match e with
  | ChatInput _ | StreamTextResponse _ _ _ => true
  | _ => false
  end.

(** The events of a run that bear on the log: the writes to
    [st.session_state] and the call of the chat engine. *)
Definition is_log_event (e : Effect ToolDefinition) : bool :=
  match e with
  | SessionAssign _ _ | SessionAppend _ _ | StreamTextResponse _ _ _ => true
  | _ => false
  end.

Definition log_events (es : list (Effect ToolDefinition))
  : list (Effect ToolDefinition) :=
  List.filter is_log_event es.

(** The same widget values with the constructors of other inputs. *)
Definition with_constructors (j i : Inputs) : Inputs :=
  mkInputs (new_ClientManager j) (new_ResearchEngine j) (new_ChatEngine j)
           (research_depth i) (time_limit_seconds i) (max_urls_value i)
           (clear_clicked i) (chat_input i).

(** The same inputs with another value of the chat input. *)
Definition with_chat_input (user_input : option string) (i : Inputs) : Inputs :=
  mkInputs (new_ClientManager i) (new_ResearchEngine i) (new_ChatEngine i)
           (research_depth i) (time_limit_seconds i) (max_urls_value i)
           (clear_clicked i) user_input.

(** The request a run serves, if it serves one: the components it works
    with and the text the user sent.  A run serves a request when the
    components are there, the clear button was not clicked, both key
    statuses are listed and the chat input holds a non-empty text. *)
Definition request_of (i : Inputs) (w : World) : option (Components * string) :=
  match core_components i (cache_resource w) with
  | Ok (client_manager, research_engine, chat_engine) =>
      if clear_clicked i then None
      else
        match check_api_keys client_manager !! "anthropic",
              check_api_keys client_manager !! "firecrawl",
              chat_input i with
        | Some _, Some _, Some user_input =>
            if bool_decide (user_input = "") then None
            else Some ((client_manager, research_engine, chat_engine), user_input)
        | _, _, _ => None
        end
  | Raises _ => None
  end.

(** The chat messages some effects render: every [st.chat_message(role)]
    block that is entered and filled at once by [st.markdown(content)]. *)
Fixpoint rendered_messages (es : list (Effect ToolDefinition)) : list Message :=
  match es with
  | [] => []
  | e :: rest =>
      match e, rest with
      | With (ChatMessage name), Markdown body :: _ =>
          mkMessage name body :: rendered_messages rest
      | _, _ => rendered_messages rest
      end
  end.

End Page.

(** ** Sample values

    [config] and [core] are not among the sources.  The values below
    stand in for them where a statement is shown at a concrete input;
    the tool definition is kept as the tool's name. *)

Definition sample_config : Config :=
  mkConfig "Claude 4 Deep Research Assistant"
           "Chat with Claude 4 and run deep research with Firecrawl"
           "Hello! Ask me anything, or ask me to research a topic."
           5 180 20.

Definition sample_client_manager : ClientManager :=
  mkClientManager {[ "anthropic" := true; "firecrawl" := true ]}.

Definition sample_research_engine : ResearchEngine string :=
  mkResearchEngine (String.prefix "Research") "deep_research".

Definition sample_chat_engine : ChatEngine string :=
  mkChatEngine
    (fun session_messages welcome_message =>
       List.filter
         (fun m => negb (String.eqb (content m) welcome_message))
         session_messages)
    (fun messages tools placeholder =>
       Ok "Quantum error correction has moved from theory to hardware.").

Definition sample_inputs (clear : bool) (user_input : option string)
  : Inputs (ToolDefinition := string) :=
  mkInputs (Ok sample_client_manager)
           (fun _ => Ok sample_research_engine)
           (fun _ _ => Ok sample_chat_engine)
           5 180 20 clear user_input.

Definition sample_request : Inputs (ToolDefinition := string) :=
  sample_inputs false
    (Some "Research the latest developments in quantum computing").

Definition missing_keys : Inputs (ToolDefinition := string) :=
  mkInputs (Raises (ValueError "ANTHROPIC_API_KEY is not set"))
           (fun _ => Ok sample_research_engine)
           (fun _ _ => Ok sample_chat_engine)
           5 180 20 false None.


(** A client manager whose status dict lacks the ["firecrawl"] entry, and
    one that reports both keys as missing. *)
Definition partial_client_manager : ClientManager :=
  mkClientManager {[ "anthropic" := true ]}.

Definition keyless_client_manager : ClientManager :=
  mkClientManager {[ "anthropic" := false; "firecrawl" := false ]}.

(** A chat engine whose call fails. *)
Definition failing_chat_engine : ChatEngine string :=
  mkChatEngine
    (prepare_claude_messages sample_chat_engine)
    (fun messages tools placeholder =>
       Raises (OtherError "APIConnectionError" "Connection error.")).

(** The session after the sample request was answered. *)
Definition sample_session : World (ToolDefinition := string) :=
  run sample_config sample_request fresh.

(** Idle or requesting inputs with a given client manager and chat
    engine. *)
Definition inputs_with (client_manager : ClientManager)
    (chat_engine : ChatEngine string) (user_input : option string)
  : Inputs (ToolDefinition := string) :=
  mkInputs (Ok client_manager)
           (fun _ => Ok sample_research_engine)
           (fun _ _ => Ok chat_engine)
           5 180 20 false user_input.

(** A session that holds a key of its own next to the page's. *)
Definition drafting_session : World (ToolDefinition := string) :=
  mkWorld {[ "draft" := [mkMessage "user" "Not sent yet"] ]} None [].

End App.

(** * The tool-orchestration loop

    The page hands every request to [ChatEngine.stream_text_response].
    Its module, [core], is not among the sources, so this part models the
    loop from the specification: the data model (section 3), the stream
    assembler (4.4), the state machine (4.3) and the entry point
    [respond] (6).  There is no clock in the model: a blocking call
    either completes or reports that the deadline cut it short. *)

Module Orchestrator.

(** ** Data model *)

(** Modelled from the spec: the roles of a [ConversationMessage]
    (section 3); [core], which holds the conversation, is missing. *)
Inductive Role := user | assistant | tool.

(** Modelled from the spec: [ResearchConfig] of section 3, the caller's
    research parameters; [core], which receives them, is missing. *)
Record ResearchConfig := mkResearchConfig {
  max_depth : Z;
  time_limit_seconds : Z;
  max_urls : Z
}.

(** Modelled from the spec: the arguments of a tool call as the declared
    schema of section 6 gives them, a required query and three optional
    integers. *)
Record ToolArguments := mkToolArguments {
  query : string;
  arg_max_depth : option Z;
  arg_time_limit_seconds : option Z;
  arg_max_urls : option Z
}.

(** Modelled from the spec: [ToolInvocation] of section 3, the tool
    call the model produces; [core] is missing. *)
Record ToolInvocation := mkToolInvocation {
  name : string;
  arguments : ToolArguments;
  call_id : string
}.

(** Modelled from the spec: [ToolResult] of section 3, what the
    orchestrator returns for a call; [core] is missing. *)
Record ToolResult := mkToolResult {
  result_call_id : string;
  result_content : string;
  is_error : bool
}.

(** Modelled from the spec: the content of a [ConversationMessage], a
    closed union as section 9 asks; [core] is missing. *)
Inductive Content :=
| Text (text : string)
| Invocation (invocation : ToolInvocation)
| Result (result : ToolResult).

(** Modelled from the spec: [ConversationMessage] of section 3; [core]
    is missing. *)
Record ConversationMessage := mkConversationMessage {
  role : Role;
  content : Content
}.

(** Modelled from the spec: an integer range of the declared schema
    (section 6); [ResearchEngine.get_tool_definition] is missing. *)
Record IntegerRange := mkIntegerRange { minimum : Z; maximum : Z }.

(** Modelled from the spec: the tool declaration of sections 4.3 and 6,
    a name, a description and the ranges of the three optional integers;
    [ResearchEngine.get_tool_definition] is missing. *)
Record ToolDeclaration := mkToolDeclaration {
  tool_name : string;
  description : string;
  max_depth_range : IntegerRange;
  time_limit_seconds_range : IntegerRange;
  max_urls_range : IntegerRange
}.

(** Modelled from the spec: the one tool of section 6 with its bounds;
    [ResearchEngine.get_tool_definition] is missing. *)
Definition deep_research : ToolDeclaration :=
  mkToolDeclaration "deep_research"
    "Research a topic in depth on the web and report the findings"
    (mkIntegerRange 1 10) (mkIntegerRange 30 300) (mkIntegerRange 1 100).

Definition in_range (r : IntegerRange) (z : Z) : bool :=
  (minimum r <=? z) && (z <=? maximum r).

(** Modelled from the spec: the validation of a [ResearchConfig]
    against the bounds of section 3, which [core] is to do at its
    boundary; the result names the first field out of range. *)
Definition invalid_field (c : ResearchConfig) : option string :=
  if negb (in_range (max_depth_range deep_research) (max_depth c))
  then Some "max_depth"
  else if negb (in_range (time_limit_seconds_range deep_research)
                         (time_limit_seconds c))
  then Some "time_limit_seconds"
  else if negb (in_range (max_urls_range deep_research) (max_urls c))
  then Some "max_urls"
  else None.

Definition valid_config (c : ResearchConfig) : bool :=
  bool_decide (invalid_field c = None).

(** ** The stream assembler (4.4) *)

(** Modelled from the spec: the five events of a model turn (4.4); the
    stream handling of [ChatEngine] is missing. *)
Inductive StreamEvent :=
| text_delta (text : string)
| tool_call_start (name call_id : string)
| tool_call_argument_delta (fragment : string)
| tool_call_end
| turn_end.

(** Modelled from the spec: how the wait for the next event ends when
    the stream has no further event, by the deadline (section 5) or by
    a transport failure (section 7); [ChatEngine] is missing. *)
Inductive Interruption := deadline_passed | transport_failed.

(** Modelled from the spec: the event sequence of one model turn (4.4)
    with the way it breaks off; the provider client of [core] is
    missing. *)
Record ModelStream := mkModelStream {
  events : list StreamEvent;
  interruption : Interruption
}.

(** Modelled from the spec: the partially assembled tool call of a
    [StreamState] (section 3); [ChatEngine] is missing. *)
Record PendingToolCall := mkPendingToolCall {
  pending_name : string;
  pending_call_id : string;
  pending_arguments : string
}.

(** Modelled from the spec: [StreamState] of section 3; [ChatEngine] is
    missing. *)
Record StreamState := mkStreamState {
  partial_text : string;
  pending_tool_call : option PendingToolCall
}.

(** Modelled from the spec: a parsed arguments payload (4.4), the
    fields of a JSON object with the values the schema tells apart; the
    tool-call handling of [ChatEngine] is missing. *)
Inductive Json :=
| JString (s : string)
| JInteger (z : Z)
| JOther.

Fixpoint field (key : string) (object : list (string * Json)) : option Json :=
  match object with
  | [] => None
  | (k, v) :: rest => if String.eqb k key then Some v else field key rest
  end.

(** Modelled from the spec: an optional integer of the declared schema
    (section 6), absent, within its range, or a failure naming the
    field; [ChatEngine] is missing. *)
Definition optional_integer (key : string) (range : IntegerRange)
    (object : list (string * Json)) : string + option Z :=
  match field key object with
  | None => inr None
  | Some (JInteger z) => if in_range range z then inr (Some z) else inl key
  | Some _ => inl key
  end.

(** Modelled from the spec: matching a parsed payload against the
    declared schema (4.4, section 6); a failure names the field
    (section 7); [ChatEngine] is missing. *)
Definition match_schema (object : list (string * Json))
  : string + ToolArguments :=
  match field "query" object with
  | Some (JString q) =>
      match optional_integer "max_depth" (max_depth_range deep_research) object with
      | inl f => inl f
      | inr depth =>
      match optional_integer "time_limit_seconds"
              (time_limit_seconds_range deep_research) object with
      | inl f => inl f
      | inr time =>
      match optional_integer "max_urls" (max_urls_range deep_research) object with
      | inl f => inl f
      | inr urls => inr (mkToolArguments q depth time urls)
      end end end
  | _ => inl "query"
  end.

(** Modelled from the spec: [TurnOutcome] of 4.4; [ChatEngine] is
    missing. *)
Inductive TurnOutcome :=
| TerminalText (text : string)
| ToolCall (invocation : ToolInvocation).

(** Modelled from the spec: how a turn ends, resolved or with one of the
    errors of section 7; [ChatEngine] is missing. *)
Inductive TurnResult :=
| Resolved (outcome : TurnOutcome)
| ProtocolError (field : string)
| TransportError
| DeadlineExceeded (partial : string).

Section Assembler.

(** The JSON parser, a library function of the implementation. *)
Variable parse_json : string -> option (list (string * Json)).

(** Modelled from the spec: the end of a tool call (4.4), where the
    accumulated arguments must parse and match the schema of the one
    declared tool; [ChatEngine] is missing. *)
Definition complete_tool_call (p : PendingToolCall) : TurnResult :=
  if negb (String.eqb (pending_name p) (tool_name deep_research))
  then ProtocolError "name"
  else
    match parse_json (pending_arguments p) with
    | None => ProtocolError "arguments"
    | Some object =>
        match match_schema object with
        | inl f => ProtocolError f
        | inr args =>
            Resolved (ToolCall (mkToolInvocation (pending_name p) args
                                                 (pending_call_id p)))
        end
    end.

(** Modelled from the spec: [streamTurn] of 4.4 on the events of one
    turn; [ChatEngine] is missing.  It returns the text deltas it passed
    to [onTextDelta], in order, and how the turn resolved.  A tool call
    that ends resolves the turn, whatever text came before it (the
    tie-break of 4.3). *)
Fixpoint assemble (events : list StreamEvent) (interruption : Interruption)
    (st : StreamState) : list string * TurnResult :=
  match events with
  | [] =>
      ([], match interruption with
           | deadline_passed => DeadlineExceeded (partial_text st)
           | transport_failed => TransportError
           end)
  | text_delta text :: rest =>
      let '(deltas, r) :=
        assemble rest interruption
          (mkStreamState (partial_text st +:+ text) (pending_tool_call st)) in
      (text :: deltas, r)
  | tool_call_start name call_id :: rest =>
      match pending_tool_call st with
      | Some _ => ([], ProtocolError "tool_call_start")
      | None =>
          assemble rest interruption
            (mkStreamState (partial_text st)
                           (Some (mkPendingToolCall name call_id "")))
      end
  | tool_call_argument_delta fragment :: rest =>
      match pending_tool_call st with
      | None => ([], ProtocolError "tool_call_argument_delta")
      | Some p =>
          assemble rest interruption
            (mkStreamState (partial_text st)
               (Some (mkPendingToolCall (pending_name p) (pending_call_id p)
                        (pending_arguments p +:+ fragment))))
      end
  | tool_call_end :: _ =>
      match pending_tool_call st with
      | None => ([], ProtocolError "tool_call_end")
      | Some p => ([], complete_tool_call p)
      end
  | turn_end :: _ =>
      match pending_tool_call st with
      | None => ([], Resolved (TerminalText (partial_text st)))
      | Some _ => ([], ProtocolError "arguments")
      end
  end.

(** Modelled from the spec: [streamTurn] from the empty [StreamState];
    [ChatEngine] is missing. *)
Definition streamTurn (stream : ModelStream) : list string * TurnResult :=
  assemble (events stream) (interruption stream) (mkStreamState "" None).

End Assembler.

(** ** The orchestrator (4.3) *)

(** Modelled from the spec: what the research provider is asked
    (section 6); [ResearchEngine] is missing. *)
Record ResearchRequest := mkResearchRequest {
  request_query : string;
  request_depth : Z;
  request_time_limit : Z;
  request_max_urls : Z
}.

(** Modelled from the spec: what the research provider call gives back
    (section 6), findings, an error, or the deadline reached while
    waiting (section 5); [ResearchEngine] is missing. *)
Inductive ProviderReply :=
| findings (text : string)
| provider_error (diagnostic : string)
| provider_deadline.

(** Modelled from the spec: the external interfaces of section 6, which
    [ClientManager] of [core] wraps: the model provider (asked with the
    number of model calls the request made before, the system prompt,
    the conversation and the tool declaration), the JSON parser and the
    research provider. *)
Record Environment := mkEnvironment {
  model :
    nat -> string -> list ConversationMessage -> ToolDeclaration -> ModelStream;
  parse_json : string -> option (list (string * Json));
  research : ResearchRequest -> ProviderReply
}.

(** Modelled from the spec: the states of 4.3; [ChatEngine] is
    missing. *)
Inductive State := AWAITING_MODEL | EXECUTING_TOOL | DONE | FAILED | TIMED_OUT.

(** Modelled from the spec: the terminal states (4.3, item 4). *)
Definition terminal (s : State) : bool :=
  match s with
  | DONE | FAILED | TIMED_OUT => true
  | AWAITING_MODEL | EXECUTING_TOOL => false
  end.

(** Modelled from the spec: what the loop does to the outside, in
    order: a model turn it requests, a text delta it hands to the
    caller, a request it sends to the research provider, and a
    programming error it stops on; [ChatEngine] is missing. *)
Inductive Effect :=
| ModelCall (system_prompt : string) (conversation : list ConversationMessage)
    (tools : ToolDeclaration)
| TextDelta (text : string)
| ProviderCall (request : ResearchRequest)
| ProgrammingError (note : string).

(** Modelled from the spec: the orchestrator of 4.3 between two
    transitions: its state, the conversation it owns, the tool call it
    is executing, the tool rounds and model calls so far, the text it
    returns and its effects; [ChatEngine] is missing. *)
Record Machine := mkMachine {
  state : State;
  conversation : list ConversationMessage;
  pending : option ToolInvocation;
  rounds : nat;
  model_calls : nat;
  final_text : string;
  effects : list Effect
}.

(** Modelled from the spec: the cap on tool-use rounds (4.3). *)
Definition MAX_TOOL_ROUNDS : nat := 5.

(** Modelled from the spec: the note that research was cut short
    (4.3); the text is the model's choice. *)
Definition TRUNCATION_NOTICE : string :=
  " [Research was cut short: the time limit was reached.]".

(** Modelled from the spec: the short diagnostic of a failed provider
    call (4.3); the prefix and the length bound are the model's
    choice. *)
Definition DIAGNOSTIC_LENGTH : nat := 200.

Definition diagnostic_of (provider_message : string) : string :=
  "Research failed: " +:+ String.substring 0 DIAGNOSTIC_LENGTH provider_message.

(** Modelled from the spec: the notes of the final text (4.3, item 4,
    and section 7); the texts are the model's choice. *)
Definition protocol_error_note (field : string) : string :=
  "Protocol error: the tool call field " +:+ field +:+ " failed to parse.".

Definition transport_error_note : string :=
  "Transport error: the model could not be reached.".

Definition round_limit_note : string :=
  "The tool-use round limit was reached.".

Definition dangling_invocation_note : string :=
  "Internal error: the conversation has a tool call without its result.".

Definition no_pending_call_note : string :=
  "Internal error: no tool call is pending.".

Definition invalid_config_note (field : string) : string :=
  "Invalid research configuration: " +:+ field +:+ " is out of range.".

(** Modelled from the spec: the request to the provider (4.3, item 2),
    the query of the call, and each parameter from the call when it
    gives one, else from the caller's configuration; [ResearchEngine]
    is missing. *)
Definition research_request (config : ResearchConfig) (inv : ToolInvocation)
  : ResearchRequest :=
  let args := arguments inv in
  mkResearchRequest (query args)
    (default (max_depth config) (arg_max_depth args))
    (default (time_limit_seconds config) (arg_time_limit_seconds args))
    (default (max_urls config) (arg_max_urls args)).

(** Modelled from the spec: a [ToolResult] as the tool-role message
    that is appended to the conversation (section 3). *)
Definition tool_result_message (r : ToolResult) : ConversationMessage :=
  mkConversationMessage tool (Result r).

(** Modelled from the spec: a tool-role message carrying the result of
    the given call, by its [call_id] (section 3). *)
Definition answers (inv : ToolInvocation) (m : ConversationMessage) : bool :=
  match role m, content m with
  | tool, Result r => String.eqb (result_call_id r) (call_id inv)
  | _, _ => false
  end.

(** Modelled from the spec: no dangling invocation (sections 3 and 8),
    every message that carries a tool invocation is followed at once by
    the message with its result. *)
Fixpoint no_dangling (conv : list ConversationMessage) : bool :=
  match conv with
  | [] => true
  | m :: rest =>
      match content m with
      | Invocation inv =>
          match rest with
          | next :: _ => answers inv next
          | [] => false
          end
      | _ => true
      end && no_dangling rest
  end.

Section Loop.

Variable env : Environment.
Variable system_prompt : string.
Variable config : ResearchConfig.

(** Modelled from the spec: entering a terminal state with the final
    text (4.3, item 4); [ChatEngine] is missing. *)
Definition finish (s : State) (text : string) (es : list Effect) (m : Machine)
  : Machine :=
  mkMachine s (conversation m) None (rounds m) (model_calls m) text
            (effects m ++ es).

(** Modelled from the spec: one model turn through the assembler, the
    effects it has and how it resolved (4.3, item 1); [ChatEngine] is
    missing. *)
Definition model_turn (attempt : nat) (conv : list ConversationMessage)
  : list Effect * TurnResult :=
  let '(deltas, r) :=
    streamTurn (parse_json env) (model env attempt system_prompt conv deep_research) in
  (ModelCall system_prompt conv deep_research :: map TextDelta deltas, r).

(** Modelled from the spec: transition 1 of 4.3, with the single retry
    of a transport error of section 7; [ChatEngine] is missing.  A
    conversation with a dangling invocation is a programming error
    (section 3): the turn is not requested.  A tool call past the cap
    on rounds ends the request as failed. *)
Definition await_model (m : Machine) : Machine :=
  if negb (no_dangling (conversation m))
  then finish FAILED dangling_invocation_note
              [ProgrammingError dangling_invocation_note] m
  else
  let '(es1, r1) := model_turn (model_calls m) (conversation m) in
  let '(es, r, calls) :=
    match r1 with
    | TransportError =>
        let '(es2, r2) := model_turn (S (model_calls m)) (conversation m) in
        (es1 ++ es2, r2, S (S (model_calls m)))
    | _ => (es1, r1, S (model_calls m))
    end in
  let m := mkMachine (state m) (conversation m) (pending m) (rounds m) calls
                     (final_text m) (effects m) in
  match r with
  | Resolved (TerminalText text) => finish DONE text es m
  | Resolved (ToolCall inv) =>
      if (rounds m <? MAX_TOOL_ROUNDS)%nat
      then mkMachine EXECUTING_TOOL
             (conversation m ++ [mkConversationMessage assistant (Invocation inv)])
             (Some inv) (rounds m) calls (final_text m) (effects m ++ es)
      else finish FAILED round_limit_note es m
  | ProtocolError field => finish FAILED (protocol_error_note field) es m
  | TransportError => finish FAILED transport_error_note es m
  | DeadlineExceeded partial => finish TIMED_OUT (partial +:+ TRUNCATION_NOTICE) es m
  end.

(** Modelled from the spec: transition 2 of 4.3; [ChatEngine] and
    [ResearchEngine] are missing. *)
Definition execute_tool (m : Machine) : Machine :=
  match pending m with
  | None =>
      finish FAILED no_pending_call_note [ProgrammingError no_pending_call_note] m
  | Some inv =>
      let request := research_request config inv in
      let back (r : ToolResult) :=
        mkMachine AWAITING_MODEL (conversation m ++ [tool_result_message r])
                  None (S (rounds m)) (model_calls m) (final_text m)
                  (effects m ++ [ProviderCall request]) in
      match research env request with
      | findings text => back (mkToolResult (call_id inv) text false)
      | provider_error diagnostic =>
          back (mkToolResult (call_id inv) (diagnostic_of diagnostic) true)
      | provider_deadline =>
          finish TIMED_OUT TRUNCATION_NOTICE [ProviderCall request] m
      end
  end.

(** Modelled from the spec: one transition of the machine of 4.3. *)
Definition step (m : Machine) : Machine :=
  match state m with
  | AWAITING_MODEL => await_model m
  | EXECUTING_TOOL => execute_tool m
  | DONE | FAILED | TIMED_OUT => m
  end.

(** Modelled from the spec: the loop of 4.3, transitions until a
    terminal state, at most [fuel] of them. *)
Fixpoint run (fuel : nat) (m : Machine) : Machine :=
  match fuel with
  | O => m
  | S fuel => if terminal (state m) then m else run fuel (step m)
  end.

End Loop.

(** Modelled from the spec: steps enough for every request under the
    cap on rounds, two for a tool round and one for the last model
    turn ([orchestrate_terminal] below). *)
Definition FUEL : nat := 2 * MAX_TOOL_ROUNDS + 1.

(** Modelled from the spec: the entry point of section 6 up to the final
    machine; [ChatEngine.stream_text_response] is missing.  An
    out-of-range configuration is rejected at this boundary, before any
    call is made. *)
Definition orchestrate (env : Environment)
    (priorMessages : list ConversationMessage) (systemPrompt : string)
    (newUserMessage : string) (config : ResearchConfig) : Machine :=
  let conv :=
    priorMessages ++ [mkConversationMessage user (Text newUserMessage)] in
  match invalid_field config with
  | Some field => mkMachine FAILED conv None 0 0 (invalid_config_note field) []
  | None =>
      run env systemPrompt config FUEL
          (mkMachine AWAITING_MODEL conv None 0 0 "" [])
  end.

(** Modelled from the spec: [respond] of section 6, the final text;
    [ChatEngine.stream_text_response] is missing. *)
Definition respond (env : Environment)
    (priorMessages : list ConversationMessage) (systemPrompt : string)
    (newUserMessage : string) (config : ResearchConfig) : string :=
  final_text (orchestrate env priorMessages systemPrompt newUserMessage config).

(** ** Vocabulary for the statements *)

(** The conversations the loop passed to the model, and the requests it
    sent to the provider. *)
Definition model_conversations (es : list Effect)
  : list (list ConversationMessage) :=
  flat_map (fun e => match e with ModelCall _ conv _ => [conv] | _ => [] end) es.

Definition provider_requests (es : list Effect) : list ResearchRequest :=
  flat_map (fun e => match e with ProviderCall r => [r] | _ => [] end) es.

Definition programming_errors (es : list Effect) : list string :=
  flat_map (fun e => match e with ProgrammingError n => [n] | _ => [] end) es.

Definition is_invocation (msg : ConversationMessage) : bool :=
  match content msg with Invocation _ => true | _ => false end.

(** The invariant of the loop: while the model is awaited, the
    conversation has no dangling invocation; while a tool runs, the
    conversation ends with its invocation and nothing else dangles. *)
Definition resolved (m : Machine) : Prop :=
  match state m with
  | AWAITING_MODEL => no_dangling (conversation m) = true
  | EXECUTING_TOOL =>
      exists conv inv,
        conversation m =
          conv ++ [mkConversationMessage assistant (Invocation inv)] /\
        pending m = Some inv /\ no_dangling conv = true
  | _ => True
  end.

(** The steps a machine still needs at most. *)
Definition steps_left (m : Machine) : nat :=
  match state m with
  | AWAITING_MODEL => 2 * (MAX_TOOL_ROUNDS - rounds m) + 1
  | EXECUTING_TOOL => 2 * (MAX_TOOL_ROUNDS - rounds m)
  | _ => 0
  end.

Definition within_rounds (m : Machine) : Prop :=
  match state m with
  | EXECUTING_TOOL => (rounds m < MAX_TOOL_ROUNDS)%nat
  | _ => (rounds m <= MAX_TOOL_ROUNDS)%nat
  end.

(** Arguments whose optional integers, where given, are within the
    declared ranges. *)
Definition arguments_in_range (args : ToolArguments) : Prop :=
  (forall z, arg_max_depth args = Some z -> 1 <= z <= 10) /\
  (forall z, arg_time_limit_seconds args = Some z -> 30 <= z <= 300) /\
  (forall z, arg_max_urls args = Some z -> 1 <= z <= 100).

Definition pending_in_range (m : Machine) : Prop :=
  forall inv, pending m = Some inv -> arguments_in_range (arguments inv).

Definition within_bounds (r : ResearchRequest) : Prop :=
  1 <= request_depth r <= 10 /\ 30 <= request_time_limit r <= 300 /\
  1 <= request_max_urls r <= 100.

(** ** Sample environments *)

(** A stand-in for the JSON parser that knows one payload. *)
Definition sample_parse_json (s : string) : option (list (string * Json)) :=
  if String.eqb s "{query: quantum error correction, max_depth: 3}"
  then Some [("query", JString "quantum error correction");
             ("max_depth", JInteger 3)]
  else None.

Definition sample_invocation : ToolInvocation :=
  mkToolInvocation "deep_research"
    (mkToolArguments "quantum error correction" (Some 3) None None) "call_1".

(** The model asks for research first and answers in text afterwards;
    the research provider fails. *)
Definition failing_provider : Environment :=
  mkEnvironment
    (fun attempt _ _ _ =>
       match attempt with
       | O =>
           mkModelStream
             [text_delta "Let me look that up. ";
              tool_call_start "deep_research" "call_1";
              tool_call_argument_delta "{query: quantum error ";
              tool_call_argument_delta "correction, max_depth: 3}";
              tool_call_end]
             transport_failed
       | S _ =>
           mkModelStream
             [text_delta "I could not reach the research tool. ";
              text_delta "From what I know, surface codes lead the field.";
              turn_end]
             transport_failed
       end)
    sample_parse_json
    (fun _ => provider_error "HTTP 502 from the research provider").

Definition sample_research_config : ResearchConfig :=
  mkResearchConfig 5 180 20.

End Orchestrator.

(** * Facts about the page *)

Section PageFacts.

Import App.
Context {ToolDefinition : Type}.
Variable config : Config.

Implicit Types (i : Inputs (ToolDefinition := ToolDefinition)).
Implicit Types (w : World (ToolDefinition := ToolDefinition)).
Implicit Types (inputs : list (Inputs (ToolDefinition := ToolDefinition))).
Implicit Types (s : gmap string (list Message)).
Implicit Types (o : list (Effect ToolDefinition)).

(** ** Running the script

    The script is run on symbolic inputs one call at a time: the monad
    is unfolded, a lemma gives the result of each call that is a loop
    or a cached function, and a case split is made where the script
    branches. *)

Ltac script_norm :=
  cbv beta iota zeta delta
    [main try_except_ValueError construct call raise st_stop st_rerun
     leave item first_item session_lacks session_assign session_get
     session_append emit widget mbind mret Script_bind Script_ret
     st_cache_resource with_sliders with_decider];
  cbn [session_state cache_resource effects fst snd
       new_ClientManager new_ResearchEngine new_ChatEngine research_depth
       time_limit_seconds max_urls_value clear_clicked chat_input
       is_research_request get_tool_definition role content str
       from_option id head].

Lemma get_core_components_run i s c o :
  get_core_components i (mkWorld s c o) =
  match core_components i c with
  | Ok comps => (Return comps, mkWorld s (Some comps) o)
  | Raises (ValueError msg) =>
      (Leave Stop,
       mkWorld s c
         (o ++ [Error ("Configuration error: " +:+ msg);
                Error "Please set your API keys in the environment variables or .env file"]))
  | Raises e => (Leave (Uncaught e), mkWorld s c o)
  end.
Proof.
  unfold get_core_components, core_components. script_norm.
  destruct c as [comps|]; [reflexivity|].
  destruct (new_ClientManager i) as [cm|[msg|cls msg]];
    [|by rewrite <- app_assoc|reflexivity].
  destruct (new_ResearchEngine i cm) as [re|[msg|cls msg]];
    [|by rewrite <- app_assoc|reflexivity].
  destruct (new_ChatEngine i cm re) as [ce|[msg|cls msg]];
    [reflexivity|by rewrite <- app_assoc|reflexivity].
Qed.

Lemma display_chat_history_run messages i s c o :
  display_chat_history messages i (mkWorld s c o) =
  (Return tt, mkWorld s c (o ++ chat_history_elements messages)).
Proof.
  unfold display_chat_history, chat_history_elements.
  revert o. induction messages as [|m rest IH]; intros o.
  - cbn. by rewrite app_nil_r.
  - cbn [for_each flat_map]. script_norm. cbn [for_each flat_map] in IH.
    rewrite IH. by rewrite <- !app_assoc.
Qed.

Lemma lookup_first_snoc (l : list Message) (m : Message) :
  (l ++ [m]) !! 0%nat = Some (default m (head l)).
Proof. by destruct l. Qed.

Lemma all_but_last_snoc (l : list Message) (m : Message) :
  all_but_last (l ++ [m]) = l.
Proof.
  unfold all_but_last. rewrite length_app. cbn.
  replace (length l + 1 - 1)%nat with (length l) by lia.
  by rewrite take_app_length.
Qed.

Ltac script_rewrite :=
  match goal with
  | |- context [get_core_components _ (mkWorld _ _ _)] =>
      rewrite get_core_components_run
  | |- context [display_chat_history _ _ (mkWorld _ _ _)] =>
      rewrite display_chat_history_run
  | |- context [<[?k := _]> _ !! ?k] => rewrite lookup_insert_eq
  | |- context [[] ++ _] => rewrite app_nil_l
  | |- context [(_ ++ [_]) !! 0%nat] => rewrite lookup_first_snoc
  | |- context [all_but_last (_ ++ [_])] => rewrite all_but_last_snoc
  | H : ?x = _ |- context [match ?x with _ => _ end] => rewrite H
  end.

Ltac script_destruct :=
  match goal with
  | |- context [match core_components ?i ?c with _ => _ end] =>
      destruct (core_components i c) as [[[? ?] ?]|[?|? ?]] eqn:?
  | |- context [if clear_clicked ?i then _ else _] =>
      destruct (clear_clicked i) eqn:?
  | |- context [match check_api_keys ?cm !! ?k with _ => _ end] =>
      destruct (check_api_keys cm !! k) eqn:?
  | |- context [bool_decide (?s !! ?k = None)] =>
      destruct (s !! k) eqn:?;
      [rewrite (bool_decide_eq_false_2 (Some _ = None)) by discriminate
      |rewrite (bool_decide_eq_true_2 (None = None)) by reflexivity]
  | |- context [match chat_input ?i with _ => _ end] =>
      destruct (chat_input i) eqn:?
  | |- context [bool_decide (?u = EmptyString)] =>
      destruct (bool_decide (u = EmptyString)) eqn:?
  | |- context [if is_research_request ?re ?u then _ else _] =>
      destruct (is_research_request re u) eqn:?
  | |- context [match stream_text_response ?ce ?m ?t ?p with _ => _ end] =>
      destruct (stream_text_response ce m t p) eqn:?
  end.

Ltac script_run :=
  script_norm; repeat (first [script_rewrite | script_destruct]; script_norm).

Lemma main_unfold i w : main config i w = main_result config i w.
Proof.
  destruct w as [s c o].
  unfold main_result, page_config_elements, configuration_error_elements,
    controls_elements, instructions_elements, api_status_elements,
    initialize_elements, chat_input_elements, request_elements, request_prelude,
    RESEARCH_HINT,
    welcome.
  script_run.
  all: rewrite ?insert_insert_eq, <- ?app_assoc; cbn [app];
    rewrite ?insert_id by assumption; try reflexivity.
Qed.


(** ** The closed form in use *)

Ltac result_destruct :=
  match goal with
  | |- context [match core_components ?i ?c with _ => _ end] =>
      destruct (core_components i c) as [[[? ?] ?]|[?|? ?]] eqn:?
  | |- context [if clear_clicked ?i then _ else _] =>
      destruct (clear_clicked i) eqn:?
  | |- context [match check_api_keys ?cm !! ?k with _ => _ end] =>
      destruct (check_api_keys cm !! k) eqn:?
  | |- context [match chat_input ?i with _ => _ end] =>
      destruct (chat_input i) eqn:?
  | |- context [bool_decide (?u = EmptyString)] =>
      destruct (bool_decide (u = EmptyString)) eqn:?
  | |- context [match stream_text_response ?ce ?m ?t ?p with _ => _ end] =>
      destruct (stream_text_response ce m t p) eqn:?
  end.

Ltac result_norm :=
  cbn [session_state cache_resource effects fst snd
       is_research_request get_tool_definition with_decider].

Ltac result_cases :=
  unfold main_result; result_norm; repeat (result_destruct; result_norm).

Lemma run_unfold i w : run config i w = (main_result config i w).2.
Proof. unfold run. by rewrite main_unfold. Qed.

Lemma effects_run i w :
  effects (run config i w) = effects w ++ trace config i w.
Proof.
  unfold trace. rewrite !run_unfold. destruct w as [s c o].
  result_cases; rewrite ?app_nil_l, <- ?app_assoc; reflexivity.
Qed.

(** C1, as the code has it: the positions of the three sliders have no
    effect on a run.  The script reads them into local variables and
    never uses these, so the outcome, the session state and every
    effect, the call of the chat engine and its arguments among them,
    are the same whatever the sliders say. *)
Theorem sliders_never_reach_the_engine i w depth time urls :
  main config (with_sliders depth time urls i) w = main config i w.
Proof. rewrite !main_unfold. reflexivity. Qed.

Lemma engine_calls_app (xs ys : list (Effect ToolDefinition)) :
  engine_calls (xs ++ ys) = engine_calls xs ++ engine_calls ys.
Proof. unfold engine_calls. by rewrite flat_map_app. Qed.

Lemma engine_calls_chat_history l :
  engine_calls (chat_history_elements (ToolDefinition := ToolDefinition) l) = [].
Proof. induction l as [|m l IH]; [done|]. cbn. exact IH. Qed.

Lemma engine_calls_initialize log :
  engine_calls (initialize_elements (ToolDefinition := ToolDefinition) config log) = [].
Proof. by destruct log. Qed.

Lemma engine_calls_prelude u b :
  engine_calls (request_prelude (ToolDefinition := ToolDefinition) u b) = [].
Proof. by destruct b. Qed.

Lemma engine_calls_request u b msgs (tools : list ToolDefinition) :
  engine_calls (request_elements u b msgs tools) = [(msgs, tools)].
Proof. by destruct b. Qed.

Lemma without_hint_app (xs ys : list (Effect ToolDefinition)) :
  without_hint (xs ++ ys) = without_hint xs ++ without_hint ys.
Proof. unfold without_hint. by rewrite List.filter_app. Qed.

Lemma without_hint_request u b msgs (tools : list ToolDefinition) :
  without_hint (request_elements u b msgs tools) =
  request_elements u false msgs tools.
Proof. destruct b; vm_compute; reflexivity. Qed.

(** C4: the tools offered do not depend on the decider.  For any two
    deciders [f] and [g] in the place of [is_research_request], with the
    components as cached, the two runs end the same way, leave the same
    session state and call the chat engine with the same messages and
    the same tool list; every call carries the single tool definition;
    and the two traces differ at most in the research hint. *)
Theorem tool_offer_ignores_decider i s o cm re ce (f g : string -> bool) :
  let w_f := mkWorld s (Some (cm, with_decider f re, ce)) o in
  let w_g := mkWorld s (Some (cm, with_decider g re, ce)) o in
  (main config i w_f).1 = (main config i w_g).1
  /\ session_state (run config i w_f) = session_state (run config i w_g)
  /\ engine_calls (trace config i w_f) = engine_calls (trace config i w_g)
  /\ Forall (fun call => call.2 = [get_tool_definition re])
             (engine_calls (trace config i w_f))
  /\ without_hint (trace config i w_f) = without_hint (trace config i w_g).
Proof.
  cbv zeta. unfold trace. rewrite !run_unfold, !main_unfold.
  unfold main_result, core_components; result_norm.
  repeat (result_destruct; result_norm);
    rewrite ?engine_calls_app, ?without_hint_app, ?engine_calls_request,
      ?without_hint_request, ?engine_calls_chat_history,
      ?engine_calls_initialize;
    cbn [engine_calls flat_map app];
    repeat split; try reflexivity;
    repeat constructor.
Qed.

(** ** The persisted log *)

Lemma log_step_run i w :
  log_step config (chat_log w) (chat_log (run config i w)).
Proof.
  unfold chat_log. rewrite run_unfold. destruct w as [s c o].
  result_cases; rewrite ?lookup_insert_eq; try apply log_kept;
    try apply log_cleared.
  - rewrite <- (app_nil_r (default _ _)) at 1. apply log_grown, no_exchange.
  - apply log_grown, answered.
  - apply log_grown, unanswered.
  - rewrite <- (app_nil_r (default _ _)) at 1. apply log_grown, no_exchange.
Qed.

Lemma chat_role_exchange tail : exchange tail -> Forall chat_role tail.
Proof.
  intros []; repeat (apply Forall_cons_2; [(by left) || (by right)|]);
    apply Forall_nil_2.
Qed.

Lemma chat_role_log_step before after :
  log_step config before after ->
  (forall l, before = Some l -> Forall chat_role l) ->
  forall l, after = Some l -> Forall chat_role l.
Proof.
  intros [log|log|log tail Htail] Hbefore l; [by apply Hbefore| |]; intros [= <-].
  - constructor.
  - apply Forall_app. split; [|by apply chat_role_exchange].
    destruct log as [l0|]; cbn.
    + by apply Hbefore.
    + apply Forall_singleton. by right.
Qed.

(** C10: the persisted log holds user and assistant messages only.  A
    run keeps the log, empties it, or adds to it the user's input,
    followed by the assistant's answer when the engine returns one; the
    welcome message opens the log only when the session has none.  So
    every log reached from a fresh session has these two roles only,
    and an emptied log stays empty until there is input. *)
Theorem persisted_log_holds_chat_roles :
  (forall i w, log_step config (chat_log w) (chat_log (run config i w)))
  /\ (forall inputs l,
        chat_log (runs config inputs fresh) = Some l -> Forall chat_role l)
  /\ (forall i w,
        chat_log w = Some [] -> chat_input i = None ->
        chat_log (run config i w) = Some []).
Proof.
  split; [exact log_step_run|split].
  - intros inputs. induction inputs as [|i inputs IH] using rev_ind.
    + intros l [=].
    + unfold runs. rewrite foldl_app. cbn [foldl].
      apply (chat_role_log_step _ _ (log_step_run i _)). exact IH.
  - intros i w Hlog Hinput. unfold chat_log in *. rewrite run_unfold.
    destruct w as [s c o]. cbn [session_state] in Hlog.
    unfold main_result. result_norm. rewrite Hinput, Hlog. result_norm.
    repeat (result_destruct; result_norm);
      rewrite ?lookup_insert_eq; done.
Qed.

(** ** Writes to the session state *)

Lemma apply_writes_app (xs ys : list (Effect ToolDefinition)) s :
  apply_writes (xs ++ ys) s = apply_writes ys (apply_writes xs s).
Proof. unfold apply_writes. by rewrite foldl_app. Qed.

Lemma apply_writes_initialize s :
  apply_writes (initialize_elements (ToolDefinition := ToolDefinition) config
                  (s !! "messages")) s =
  <["messages" := default [welcome config] (s !! "messages")]> s.
Proof.
  destruct (s !! "messages") as [l|] eqn:E; cbn.
  - by rewrite insert_id.
  - by rewrite lookup_insert_eq, insert_insert_eq.
Qed.

(** ** Further properties of the page *)

Implicit Types (j : Inputs (ToolDefinition := ToolDefinition)).


Lemma runs_cons i inputs w :
  runs config (i :: inputs) w = runs config inputs (run config i w).
Proof. reflexivity. Qed.

Lemma cache_resource_run i w comps :
  core_components i (cache_resource w) = Ok comps ->
  cache_resource (run config i w) = Some comps.
Proof.
  destruct comps as [[cm re] ce]. intros H. rewrite run_unfold.
  unfold main_result. rewrite H. result_norm.
  repeat (result_destruct; result_norm); reflexivity.
Qed.

Lemma main_with_constructors j i w comps :
  cache_resource w = Some comps ->
  main config (with_constructors j i) w = main config i w.
Proof.
  destruct w as [s c o]. cbn [cache_resource]. intros ->.
  rewrite !main_unfold. reflexivity.
Qed.

(** The effects a world already holds do not bear on a run. *)
Lemma main_effects i s c o :
  main config i (mkWorld s c o) =
  ((main config i (mkWorld s c [])).1,
   mkWorld (session_state (run config i (mkWorld s c [])))
           (cache_resource (run config i (mkWorld s c [])))
           (o ++ effects (run config i (mkWorld s c [])))).
Proof.
  rewrite !run_unfold, !main_unfold.
  result_cases; rewrite ?app_nil_l, <- ?app_assoc; reflexivity.
Qed.

(** X1: components are built once per process.  Once
    [get_core_components] has cached its result, no later run consults
    the constructors: whatever they would return or raise by then (keys
    removed from the environment, say), every run goes as it would with
    the original constructors, and the cached components stay. *)
Theorem cached_components_are_reused j inputs w comps :
  cache_resource w = Some comps ->
  runs config (map (with_constructors j) inputs) w = runs config inputs w
  /\ cache_resource (runs config inputs w) = Some comps.
Proof.
  revert w. induction inputs as [|i inputs IH]; intros w H; [done|].
  cbn [map]. rewrite !runs_cons.
  replace (run config (with_constructors j i) w) with (run config i w)
    by (unfold run; by rewrite (main_with_constructors j i w comps H)).
  apply IH, cache_resource_run. by rewrite H.
Qed.

(** X2: a failed construction is not remembered.  When building the
    components raises, whether the [ValueError] that stops the page or
    anything else, nothing is cached and the session state is as it was,
    so the next run calls the constructors again and ends, writes and
    renders exactly what it would have without the failed run. *)
Theorem failed_construction_leaves_nothing_behind i i' w e :
  core_components i (cache_resource w) = Raises e ->
  let w' := run config i w in
  (main config i' w').1 = (main config i' w).1
  /\ session_state (run config i' w') = session_state (run config i' w)
  /\ cache_resource (run config i' w') = cache_resource (run config i' w)
  /\ trace config i' w' = trace config i' w.
Proof.
  intros H. cbv zeta. destruct w as [s c o]. cbn [cache_resource] in H.
  assert (exists o', run config i (mkWorld s c o) = mkWorld s c o') as [o' ->].
  { rewrite run_unfold. unfold main_result. result_norm. rewrite H.
    destruct e; by eexists. }
  unfold trace, run. result_norm.
  rewrite (main_effects i' s c o'), (main_effects i' s c o). done.
Qed.


(** X3: the status dict must list both keys.  [main] indexes
    [api_status] by ["anthropic"] and then by ["firecrawl"] before it
    writes either status line, so a dict without one of them ends the
    run with a [KeyError] for the first missing key, after the
    sub-header and with no status line written, no log created and no
    chat input rendered. *)
Theorem missing_status_key_raises i w cm re ce :
  core_components i (cache_resource w) = Ok (cm, re, ce) ->
  clear_clicked i = false ->
  let rendered :=
    effects w ++ page_config_elements ++ controls_elements config ++
    instructions_elements in
  (check_api_keys cm !! "anthropic" = None ->
   main config i w =
   (Leave (Uncaught (OtherError "KeyError" "anthropic")),
    mkWorld (session_state w) (Some (cm, re, ce)) rendered))
  /\ (is_Some (check_api_keys cm !! "anthropic") ->
      check_api_keys cm !! "firecrawl" = None ->
      main config i w =
      (Leave (Uncaught (OtherError "KeyError" "firecrawl")),
       mkWorld (session_state w) (Some (cm, re, ce)) rendered)).
Proof.
  intros Hcore Hclear. cbv zeta. rewrite main_unfold. unfold main_result.
  rewrite Hcore, Hclear. result_norm. split.
  - intros ->. by rewrite <- !app_assoc.
  - intros [a ->] ->. by rewrite <- !app_assoc.
Qed.

(** X4: an empty text is no request.  [if user_input:] treats the empty
    string like [None]: the run is the same in every respect. *)
Theorem empty_input_is_no_input i w :
  main config (with_chat_input (Some "") i) w =
  main config (with_chat_input None i) w.
Proof. rewrite !main_unfold. reflexivity. Qed.

Lemma request_of_Some i w cm re ce u :
  request_of i w = Some ((cm, re, ce), u) ->
  core_components i (cache_resource w) = Ok (cm, re, ce)
  /\ clear_clicked i = false
  /\ (exists a, check_api_keys cm !! "anthropic" = Some a)
  /\ (exists f, check_api_keys cm !! "firecrawl" = Some f)
  /\ chat_input i = Some u
  /\ bool_decide (u = "") = false.
Proof.
  unfold request_of.
  destruct (core_components i (cache_resource w)) as [[[cm0 re0] ce0]|e];
    [|done].
  destruct (clear_clicked i); [done|].
  destruct (check_api_keys cm0 !! "anthropic") as [a|] eqn:Ha; [|done].
  destruct (check_api_keys cm0 !! "firecrawl") as [f|] eqn:Hf; [|done].
  destruct (chat_input i) as [u0|]; [|done].
  destruct (bool_decide (u0 = "")) eqn:E; [done|].
  intros [= -> -> -> ->].
  split; [reflexivity|]. split; [reflexivity|].
  split; [by exists a|]. split; [by exists f|]. split; [reflexivity|exact E].
Qed.

(** X5: the chat engine is called at most once in a run, namely when
    the run serves a request, and then with the prepared messages
    followed by the user's message, and with the single tool definition.
    [prepare_claude_messages] is given the log as it was before the
    input, and as the welcome text the content of the first entry of the
    log: the welcome message in a session that was never cleared, but
    the user's own text when the log is empty. *)
Theorem engine_is_called_for_requests_only i w :
  engine_calls (trace config i w) =
  match request_of i w with
  | Some ((_, research_engine, chat_engine), user_input) =>
      let log := default [welcome config] (chat_log w) in
      let user := mkMessage "user" user_input in
      let first := default user (head log) in
      [(prepare_claude_messages chat_engine log (content first) ++ [user],
        [get_tool_definition research_engine])]
  | None => []
  end.
Proof.
  unfold trace, request_of, chat_log. rewrite run_unfold. destruct w as [s c o].
  result_cases;
    rewrite ?engine_calls_app, ?engine_calls_request,
      ?engine_calls_chat_history, ?engine_calls_initialize.
  all: reflexivity.
Qed.

(** *** What a run that reaches the chat input renders and leaves *)

Lemma trace_of i w (rendered : list (Effect ToolDefinition)) :
  effects (run config i w) = effects w ++ rendered ->
  trace config i w = rendered.
Proof. rewrite effects_run. apply app_inv_head. Qed.

Lemma main_idle_intro i w cm re ce a f :
  core_components i (cache_resource w) = Ok (cm, re, ce) ->
  clear_clicked i = false ->
  check_api_keys cm !! "anthropic" = Some a ->
  check_api_keys cm !! "firecrawl" = Some f ->
  chat_input i = None \/ chat_input i = Some "" ->
  let log := default [welcome config] (chat_log w) in
  main config i w =
  (Return tt,
   mkWorld (<["messages" := log]> (session_state w)) (Some (cm, re, ce))
     (effects w ++ page_config_elements ++ controls_elements config ++
      instructions_elements ++ api_status_elements a f ++
      initialize_elements config (chat_log w) ++ chat_history_elements log ++
      chat_input_elements ++ [MarkdownHtml FOOTER])).
Proof.
  intros Hcore Hclear Ha Hf Hinput. cbv zeta. rewrite main_unfold.
  unfold main_result, chat_log. rewrite Hcore, Hclear, Ha, Hf. result_norm.
  destruct Hinput as [-> | ->]; rewrite <- !app_assoc; reflexivity.
Qed.

Lemma main_idle i w :
  (main config i w).1 = Return tt ->
  exists cm re ce a f,
    core_components i (cache_resource w) = Ok (cm, re, ce) /\
    clear_clicked i = false /\
    check_api_keys cm !! "anthropic" = Some a /\
    check_api_keys cm !! "firecrawl" = Some f /\
    (chat_input i = None \/ chat_input i = Some "").
Proof.
  rewrite main_unfold. result_cases; intros [=].
  - do 5 eexists. repeat (split; [reflexivity || eassumption|]).
    right.
    match goal with
    | E : bool_decide _ = true |- _ => apply bool_decide_eq_true in E; subst
    end.
    reflexivity.
  - do 5 eexists. repeat (split; [reflexivity || eassumption|]).
    by left.
Qed.

Lemma main_request i w cm re ce u :
  request_of i w = Some ((cm, re, ce), u) ->
  exists a f,
    let log := default [welcome config] (chat_log w) in
    let user := mkMessage "user" u in
    let messages :=
      prepare_claude_messages ce log (content (default user (head log))) ++
      [user] in
    let tools := [get_tool_definition re] in
    let rendered :=
      page_config_elements ++ controls_elements config ++
      instructions_elements ++ api_status_elements a f ++
      initialize_elements config (chat_log w) ++ chat_history_elements log ++
      chat_input_elements ++
      request_elements u (is_research_request re u) messages tools in
    main config i w =
    match stream_text_response ce messages tools EmptyElement with
    | Raises e =>
        (Leave (Uncaught e),
         mkWorld (<["messages" := log ++ [user]]> (session_state w))
                 (Some (cm, re, ce)) (effects w ++ rendered))
    | Ok full_response =>
        let answer := mkMessage "assistant" full_response in
        (Leave Rerun,
         mkWorld (<["messages" := log ++ [user; answer]]> (session_state w))
                 (Some (cm, re, ce))
                 (effects w ++ rendered ++
                  [SessionAppend "messages" answer]))
    end.
Proof.
  intros H.
  destruct (request_of_Some _ _ _ _ _ _ H)
    as (Hcore & Hclear & [a Ha] & [f Hf] & Hinput & Hu).
  exists a, f. cbv zeta. rewrite main_unfold.
  unfold main_result, chat_log. rewrite Hcore, Hclear, Ha, Hf, Hinput, Hu.
  result_norm. result_destruct; rewrite <- !app_assoc; reflexivity.
Qed.

Lemma rendered_messages_chat_history (l : list Message)
    (rest : list (Effect ToolDefinition)) :
  rendered_messages (chat_history_elements l ++ rest) =
  l ++ rendered_messages rest.
Proof.
  induction l as [|[r c] l IH]; [reflexivity|].
  change (rendered_messages (chat_history_elements (mkMessage r c :: l) ++ rest))
    with (mkMessage r c :: rendered_messages (chat_history_elements l ++ rest)).
  by rewrite IH.
Qed.

Lemma rendered_messages_preamble a f (log : option (list Message))
    (rest : list (Effect ToolDefinition)) :
  rendered_messages
    (page_config_elements ++ controls_elements config ++
     instructions_elements ++ api_status_elements a f ++
     initialize_elements config log ++ rest) =
  rendered_messages rest.
Proof. destruct log; reflexivity. Qed.

Lemma rendered_messages_request u b messages (tools : list ToolDefinition)
    (after : list (Effect ToolDefinition)) :
  rendered_messages
    (chat_input_elements ++ request_elements u b messages tools ++ after) =
  mkMessage "user" u :: rendered_messages after.
Proof. destruct b; reflexivity. Qed.

Lemma rendered_idle i w :
  (main config i w).1 = Return tt ->
  let log := default [welcome config] (chat_log w) in
  rendered_messages (trace config i w) = log
  /\ session_state (run config i w) = <["messages" := log]> (session_state w).
Proof.
  intros H. destruct (main_idle i w H)
    as (cm & re & ce & a & f & Hcore & Hclear & Ha & Hf & Hinput).
  pose proof (main_idle_intro i w cm re ce a f Hcore Hclear Ha Hf Hinput) as E.
  cbv zeta in *. split.
  - erewrite trace_of; [|unfold run; rewrite E; reflexivity].
    rewrite rendered_messages_preamble, rendered_messages_chat_history.
    apply app_nil_r.
  - unfold run. by rewrite E.
Qed.

Lemma session_state_run_other i w (k : string) :
  k <> "messages" ->
  session_state (run config i w) !! k = session_state w !! k.
Proof.
  intros Hk. rewrite run_unfold.
  result_cases; rewrite ?lookup_insert_ne by done; reflexivity.
Qed.

(** X7: a run without interaction changes nothing the second time.
    After a run that reached the footer, the same run again reaches the
    footer, leaves the session state and the cache as it found them (the
    welcome message is not added again) and, from then on, renders the
    same elements. *)
Theorem idle_run_is_stable i w :
  (main config i w).1 = Return tt ->
  let w1 := run config i w in
  (main config i w1).1 = Return tt
  /\ session_state (run config i w1) = session_state w1
  /\ cache_resource (run config i w1) = cache_resource w1
  /\ trace config i (run config i w1) = trace config i w1.
Proof.
  intros H. destruct (main_idle i w H)
    as (cm & re & ce & a & f & Hcore & Hclear & Ha & Hf & Hinput).
  pose proof (main_idle_intro i w cm re ce a f Hcore Hclear Ha Hf Hinput) as E.
  cbv zeta in *.
  replace (run config i w) with (main config i w).2 by reflexivity.
  rewrite E. cbn [snd].
  match goal with |- context [mkWorld ?s1 ?c1 ?o1] =>
    pose proof (main_idle_intro i (mkWorld s1 c1 o1) cm re ce a f
                  eq_refl Hclear Ha Hf Hinput) as E1;
    set (w1 := mkWorld s1 c1 o1) in *
  end.
  cbv zeta in E1.
  assert (chat_log w1 = Some (default [welcome config] (chat_log w))) as Hlog.
  { unfold chat_log, w1. cbn [session_state]. apply lookup_insert_eq. }
  rewrite Hlog in E1. cbn [default from_option id] in E1.
  assert (session_state w1 =
          <["messages" := default [welcome config] (chat_log w)]>
            (session_state w)) as Hs by reflexivity.
  rewrite Hs, insert_insert_eq in E1. rewrite <- Hs in E1.
  split; [by rewrite E1|].
  split; [unfold run; by rewrite E1|].
  split; [unfold run; by rewrite E1|].
  erewrite (trace_of i w1); [|unfold run; rewrite E1; reflexivity].
  apply trace_of.
  replace (run config i w1) with (main config i w1).2 by reflexivity.
  rewrite E1. cbn [snd].
  match goal with |- context [mkWorld ?s2 ?c2 ?o2] =>
    pose proof (main_idle_intro i (mkWorld s2 c2 o2) cm re ce a f
                  eq_refl Hclear Ha Hf Hinput) as E2;
    set (w2 := mkWorld s2 c2 o2) in *
  end.
  cbv zeta in E2.
  assert (chat_log w2 = Some (default [welcome config] (chat_log w))) as Hlog2.
  { unfold chat_log, w2. rewrite Hs. cbn [session_state].
    apply lookup_insert_eq. }
  rewrite Hlog2 in E2. cbn [default from_option id] in E2.
  unfold run. rewrite E2. reflexivity.
Qed.

(** X8: the page writes one key of the session state.  Whatever the
    runs do, every key other than ["messages"] keeps its value. *)
Theorem only_the_messages_key_is_written inputs w (k : string) :
  k <> "messages" ->
  session_state (runs config inputs w) !! k = session_state w !! k.
Proof.
  intros Hk. revert w. induction inputs as [|i inputs IH]; intros w; [done|].
  rewrite runs_cons, IH. by apply session_state_run_other.
Qed.

(** X9: a run that reaches the footer has rendered the log it leaves:
    one chat message per entry, with the role and the content of the
    entry, in the order of the log. *)
Theorem page_shows_the_log i w :
  (main config i w).1 = Return tt ->
  chat_log (run config i w) = Some (rendered_messages (trace config i w)).
Proof.
  intros H. destruct (rendered_idle i w H) as [-> Hs].
  unfold chat_log. rewrite Hs. apply lookup_insert_eq.
Qed.


Lemma chat_log_insert (l : list Message) s c o :
  chat_log (mkWorld (<["messages" := l]> s) c o) = Some l.
Proof. apply lookup_insert_eq. Qed.

(** X10: what the next run shows after a request.  A run that serves a
    request renders the log it found and then the user's message.  When
    the engine answered, the run after it renders the same messages
    followed by the assistant message that was appended to the log; when
    the engine raised, the run after it renders the same messages, the
    unanswered one included. *)
Theorem rerun_shows_the_exchange i i' w comps u :
  request_of i w = Some (comps, u) ->
  (main config i' (run config i w)).1 = Return tt ->
  let shown := rendered_messages (trace config i w) in
  let shown_next := rendered_messages (trace config i' (run config i w)) in
  shown = default [welcome config] (chat_log w) ++ [mkMessage "user" u]
  /\ ((main config i w).1 = Leave Rerun ->
      exists full_response,
        In (SessionAppend "messages" (mkMessage "assistant" full_response))
           (trace config i w) /\
        shown_next = shown ++ [mkMessage "assistant" full_response])
  /\ (forall e, (main config i w).1 = Leave (Uncaught e) -> shown_next = shown).
Proof.
  destruct comps as [[cm re] ce]. intros Hrequest Hnext.
  destruct (main_request i w cm re ce u Hrequest) as (a & f & E).
  destruct (rendered_idle i' _ Hnext) as [Hshown _].
  cbv zeta in *. rewrite Hshown. clear Hshown Hnext.
  replace (run config i w) with (main config i w).2 by reflexivity.
  rewrite E.
  destruct (stream_text_response _ _ _ _) as [full_response|e] eqn:Hcall.
  - erewrite trace_of; [|unfold run; rewrite E, ?Hcall; reflexivity].
    rewrite <- !app_assoc.
    rewrite rendered_messages_preamble, rendered_messages_chat_history.
    rewrite rendered_messages_request.
    cbn [snd fst]. rewrite chat_log_insert. cbn [default from_option id rendered_messages].
    split; [reflexivity|]. split; [|intros e [=]].
    intros _. exists full_response. split.
    + do 8 (apply in_or_app; right). by left.
    + by rewrite <- app_assoc.
  - erewrite trace_of; [|unfold run; rewrite E, ?Hcall; reflexivity].
    rewrite rendered_messages_preamble, rendered_messages_chat_history.
    rewrite <- (app_nil_r (request_elements _ _ _ _)).
    rewrite rendered_messages_request.
    cbn [snd fst]. rewrite chat_log_insert. cbn [default from_option id rendered_messages].
    split; [reflexivity|]. split; [intros [=]|]. by intros e0 _.
Qed.

(** X11: the key statuses are shown, not acted on.  With two client
    managers that both list the two keys, whatever the statuses, a run
    ends the same way, leaves the same session state, calls the chat
    engine with the same arguments and renders the same chat
    messages. *)
Theorem api_status_is_informational i s o cm cm' re ce :
  is_Some (check_api_keys cm !! "anthropic") ->
  is_Some (check_api_keys cm !! "firecrawl") ->
  is_Some (check_api_keys cm' !! "anthropic") ->
  is_Some (check_api_keys cm' !! "firecrawl") ->
  let w := mkWorld s (Some (cm, re, ce)) o in
  let w' := mkWorld s (Some (cm', re, ce)) o in
  (main config i w).1 = (main config i w').1
  /\ session_state (run config i w) = session_state (run config i w')
  /\ engine_calls (trace config i w) = engine_calls (trace config i w')
  /\ rendered_messages (trace config i w) =
     rendered_messages (trace config i w').
Proof.
  intros [a Ha] [f Hf] [a' Ha'] [f' Hf']. cbv zeta.
  unfold trace. rewrite !run_unfold, !main_unfold.
  unfold main_result, core_components; result_norm.
  rewrite Ha, Hf, Ha', Hf'. result_norm.
  repeat (result_destruct; result_norm);
    rewrite ?app_nil_l, <- ?app_assoc,
      ?engine_calls_app, ?engine_calls_request, ?engine_calls_chat_history,
      ?engine_calls_initialize,
      ?rendered_messages_preamble;
    repeat split; reflexivity.
Qed.

(** X12: the clear button ends the run where it stands.  With the
    components there and the button clicked, the run assigns the empty
    list to the log and reruns: the chat input is not read (any text in
    it is dropped), not rendered, the engine is not called and no chat
    message is rendered; the components are cached. *)
Theorem clear_ends_the_run i w comps :
  core_components i (cache_resource w) = Ok comps ->
  clear_clicked i = true ->
  (forall user_input,
     main config (with_chat_input user_input i) w = main config i w)
  /\ (main config i w).1 = Leave Rerun
  /\ session_state (run config i w) = <["messages" := []]> (session_state w)
  /\ cache_resource (run config i w) = Some comps
  /\ Forall (fun e => serves_user e = false) (trace config i w)
  /\ rendered_messages (trace config i w) = [].
Proof.
  destruct comps as [[cm re] ce]. intros Hcore Hclear.
  assert (main config i w =
          (Leave Rerun,
           mkWorld (<["messages" := []]> (session_state w)) (Some (cm, re, ce))
             (effects w ++ page_config_elements ++ controls_elements config ++
              [SessionAssign "messages" []]))) as E.
  { rewrite main_unfold. unfold main_result. rewrite Hcore, Hclear.
    by rewrite <- !app_assoc. }
  split.
  { intros user_input. rewrite E, main_unfold. unfold main_result.
    change (core_components (with_chat_input user_input i) (cache_resource w))
      with (core_components i (cache_resource w)).
    change (clear_clicked (with_chat_input user_input i))
      with (clear_clicked i).
    rewrite Hcore, Hclear. by rewrite <- !app_assoc. }
  rewrite (trace_of i w _ ltac:(unfold run; rewrite E; reflexivity)).
  unfold run. rewrite E. repeat split.
  repeat (apply Forall_cons_2; [reflexivity|]). apply Forall_nil_2.
Qed.


Lemma hint_chat_history (l : list Message) :
  existsb is_research_hint
    (chat_history_elements (ToolDefinition := ToolDefinition) l) = false.
Proof. induction l as [|m l IH]; [done|]. exact IH. Qed.

Lemma hint_static a f (log : option (list Message)) :
  existsb is_research_hint
    (page_config_elements (ToolDefinition := ToolDefinition)) = false /\
  existsb is_research_hint
    (controls_elements (ToolDefinition := ToolDefinition) config) = false /\
  existsb is_research_hint
    (instructions_elements (ToolDefinition := ToolDefinition)) = false /\
  existsb is_research_hint
    (api_status_elements (ToolDefinition := ToolDefinition) a f) = false /\
  existsb is_research_hint
    (initialize_elements (ToolDefinition := ToolDefinition) config log) = false /\
  existsb is_research_hint
    (chat_input_elements (ToolDefinition := ToolDefinition)) = false.
Proof. destruct log; repeat split; reflexivity. Qed.

Lemma hint_request u b messages (tools : list ToolDefinition) :
  existsb is_research_hint (request_elements u b messages tools) = b.
Proof. destruct b; vm_compute; reflexivity. Qed.

(** X13: the research hint is rendered exactly in the runs that serve a
    request whose text [is_research_request] accepts. *)
Theorem research_hint_follows_the_decider i w :
  existsb is_research_hint (trace config i w) =
  match request_of i w with
  | Some ((_, research_engine, _), user_input) =>
      is_research_request research_engine user_input
  | None => false
  end.
Proof.
  unfold trace, request_of. rewrite run_unfold. destruct w as [s c o].
  result_cases; rewrite ?app_nil_l; try reflexivity.
  all: rewrite ?existsb_app, ?hint_request, ?hint_chat_history.
  all: repeat match goal with
       | |- context [api_status_elements ?a ?f] =>
           match goal with
           | |- context [initialize_elements config ?log] =>
               destruct (hint_static a f log) as (E1 & E2 & E3 & E4 & E5 & E6);
               rewrite ?E1, ?E2, ?E3, ?E4, ?E5, ?E6; clear E1 E2 E3 E4 E5 E6
           end
       end.
  all: cbn [existsb is_research_hint orb]; rewrite ?orb_false_r; reflexivity.
Qed.

(** ** Errors that keep the page from serving *)




(** ** The log during a request *)

Lemma log_events_app (xs ys : list (Effect ToolDefinition)) :
  log_events (xs ++ ys) = log_events xs ++ log_events ys.
Proof. unfold log_events. by rewrite List.filter_app. Qed.

Lemma log_events_chat_history (l : list Message) :
  log_events (chat_history_elements (ToolDefinition := ToolDefinition) l) = [].
Proof. induction l as [|m l IH]; [done|]. exact IH. Qed.

Lemma log_events_initialize (log : option (list Message)) :
  log_events (initialize_elements (ToolDefinition := ToolDefinition) config log) =
  initialize_elements config log.
Proof. by destruct log. Qed.

Lemma log_events_static a f :
  log_events (page_config_elements (ToolDefinition := ToolDefinition)) = [] /\
  log_events (controls_elements (ToolDefinition := ToolDefinition) config) = [] /\
  log_events (instructions_elements (ToolDefinition := ToolDefinition)) = [] /\
  log_events (api_status_elements (ToolDefinition := ToolDefinition) a f) = [] /\
  log_events (chat_input_elements (ToolDefinition := ToolDefinition)) = [].
Proof. by repeat split. Qed.

Lemma log_events_request u b messages (tools : list ToolDefinition) :
  log_events (request_elements u b messages tools) =
  [SessionAppend "messages" (mkMessage "user" u);
   StreamTextResponse messages tools EmptyElement].
Proof. by destruct b. Qed.

(** C8, as the code has it: what happens to the log in a run that serves
    a request.  The events of the run that bear on the log are, in this
    order: the creation of the log with the welcome message when the
    session has none, the append of the user's message, the call of the
    chat engine, and, when the call returns, the append of the
    assistant's message with the returned text; there is no other write.
    So the log at the time of the call is the log the run found followed
    by the user's message, and the log the run leaves is that log,
    followed by the assistant's message when there is one. *)
Theorem log_events_of_a_request i w cm re ce u :
  request_of i w = Some ((cm, re, ce), u) ->
  let log := default [welcome config] (chat_log w) in
  let user := mkMessage "user" u in
  let messages :=
    prepare_claude_messages ce log (content (default user (head log))) ++
    [user] in
  let tools := [get_tool_definition re] in
  let before_call :=
    initialize_elements config (chat_log w) ++ [SessionAppend "messages" user] in
  let call := StreamTextResponse messages tools EmptyElement in
  apply_writes before_call (session_state w) !! "messages" = Some (log ++ [user])
  /\ match stream_text_response ce messages tools EmptyElement with
     | Ok full_response =>
         let answer := mkMessage "assistant" full_response in
         log_events (trace config i w) =
           before_call ++ [call; SessionAppend "messages" answer]
         /\ chat_log (run config i w) = Some (log ++ [user; answer])
     | Raises _ =>
         log_events (trace config i w) = before_call ++ [call]
         /\ chat_log (run config i w) = Some (log ++ [user])
     end.
Proof.
  intros Hrequest.
  destruct (main_request i w cm re ce u Hrequest) as (a & f & E).
  destruct (log_events_static a f) as (E1 & E2 & E3 & E4 & E5).
  cbv zeta in *. split.
  { rewrite apply_writes_app. unfold chat_log.
    rewrite apply_writes_initialize.
    cbn [apply_writes foldl apply_write]. rewrite lookup_insert_eq.
    apply lookup_insert_eq. }
  destruct (stream_text_response _ _ _ _) as [full_response|e].
  - erewrite trace_of; [|unfold run; rewrite E; reflexivity].
    unfold run. rewrite E. cbn [snd]. split; [|apply chat_log_insert].
    rewrite !log_events_app, E1, E2, E3, E4, E5, log_events_initialize,
      log_events_chat_history, log_events_request.
    cbn [app]. rewrite <- !app_assoc. reflexivity.
  - erewrite trace_of; [|unfold run; rewrite E; reflexivity].
    unfold run. rewrite E. cbn [snd]. split; [|apply chat_log_insert].
    rewrite !log_events_app, E1, E2, E3, E4, E5, log_events_initialize,
      log_events_chat_history, log_events_request.
    cbn [app]. rewrite <- !app_assoc. reflexivity.
Qed.

(** X6: the page's own accesses to the log never fail.  With the
    components there and both key statuses listed, a run that ends in an
    exception served a request and the exception is the one
    [stream_text_response] raised: reading [st.session_state.messages],
    appending to it and taking [messages[0]] raise in no session state,
    be it without a log or with a log that was emptied.  (The other
    methods of [core] and the widgets are taken to return.) *)
Theorem log_accesses_never_raise i w cm re ce e :
  core_components i (cache_resource w) = Ok (cm, re, ce) ->
  is_Some (check_api_keys cm !! "anthropic") ->
  is_Some (check_api_keys cm !! "firecrawl") ->
  (main config i w).1 = Leave (Uncaught e) ->
  exists u,
    request_of i w = Some ((cm, re, ce), u) /\
    let log := default [welcome config] (chat_log w) in
    let user := mkMessage "user" u in
    let first := default user (head log) in
    stream_text_response ce
      (prepare_claude_messages ce log (content first) ++ [user])
      [get_tool_definition re] EmptyElement = Raises e.
Proof.
  intros Hcore [a Ha] [f Hf]. rewrite main_unfold.
  unfold request_of, chat_log, main_result. rewrite Hcore, Ha, Hf.
  destruct w as [s c o]. result_norm.
  repeat (result_destruct; result_norm); intros [=]; subst.
  eexists. split; [reflexivity|]. done.
Qed.

End PageFacts.

(** ** The page at sample inputs *)

Section PageExamples.

Import App.

(** C1 at two slider settings: the engine is called with the same
    messages and tools. *)
Lemma sliders_at_both_ends :
  engine_calls
    (trace sample_config (with_sliders 1 30 1 sample_request) fresh) =
  [([mkMessage "user"
       "Research the latest developments in quantum computing"],
    ["deep_research"])]
  /\ engine_calls
       (trace sample_config (with_sliders 10 300 100 sample_request) fresh) =
     [([mkMessage "user"
          "Research the latest developments in quantum computing"],
       ["deep_research"])].
Proof. split; vm_compute; reflexivity. Qed.


Lemma cleared_log_has_no_welcome :
  Forall chat_role
    [mkMessage "user" "What is 2+2?";
     mkMessage "assistant"
       "Quantum error correction has moved from theory to hardware."].
Proof.
  apply (proj1 (proj2 (persisted_log_holds_chat_roles sample_config))
           [sample_request; sample_inputs true None;
            sample_inputs false (Some "What is 2+2?")]).
  vm_compute. reflexivity.
Defined.

(** The further properties at sample inputs. *)
Lemma lost_keys_go_unnoticed :
  runs sample_config
    (map (with_constructors missing_keys)
         [sample_inputs false (Some "What is 2+2?")]) sample_session =
  runs sample_config [sample_inputs false (Some "What is 2+2?")] sample_session
  /\ cache_resource
       (runs sample_config [sample_inputs false (Some "What is 2+2?")]
             sample_session) =
     Some (sample_client_manager, sample_research_engine, sample_chat_engine).
Proof.
  apply (cached_components_are_reused sample_config missing_keys
           [sample_inputs false (Some "What is 2+2?")] sample_session).
  vm_compute. reflexivity.
Defined.

Lemma keys_set_after_a_failed_start :
  (main sample_config sample_request (run sample_config missing_keys fresh)).1 =
  (main sample_config sample_request fresh).1
  /\ session_state
       (run sample_config sample_request (run sample_config missing_keys fresh)) =
     session_state (run sample_config sample_request fresh)
  /\ cache_resource
       (run sample_config sample_request (run sample_config missing_keys fresh)) =
     cache_resource (run sample_config sample_request fresh)
  /\ trace sample_config sample_request (run sample_config missing_keys fresh) =
     trace sample_config sample_request fresh.
Proof.
  apply (failed_construction_leaves_nothing_behind sample_config missing_keys
           sample_request fresh (ValueError "ANTHROPIC_API_KEY is not set")).
  reflexivity.
Defined.

Lemma status_without_firecrawl_entry :
  main sample_config
    (inputs_with partial_client_manager sample_chat_engine None) fresh =
  (Leave (Uncaught (OtherError "KeyError" "firecrawl")),
   mkWorld ∅
     (Some (partial_client_manager, sample_research_engine, sample_chat_engine))
     (effects (fresh (ToolDefinition := string)) ++ page_config_elements ++
      controls_elements sample_config ++ instructions_elements)).
Proof.
  apply (missing_status_key_raises sample_config
           (inputs_with partial_client_manager sample_chat_engine None) fresh
           partial_client_manager sample_research_engine sample_chat_engine
           eq_refl eq_refl).
  - exists true. vm_compute. reflexivity.
  - vm_compute. reflexivity.
Defined.

Lemma welcome_is_added_once :
  let i := sample_inputs false None in
  let w1 := run sample_config i fresh in
  (main sample_config i w1).1 = Return tt
  /\ session_state (run sample_config i w1) = session_state w1
  /\ cache_resource (run sample_config i w1) = cache_resource w1
  /\ trace sample_config i (run sample_config i w1) = trace sample_config i w1.
Proof.
  apply (idle_run_is_stable sample_config (sample_inputs false None) fresh).
  vm_compute. reflexivity.
Defined.

Lemma draft_survives_a_request :
  session_state (runs sample_config [sample_request] drafting_session) !! "draft" =
  session_state drafting_session !! "draft".
Proof.
  apply (only_the_messages_key_is_written sample_config [sample_request]
           drafting_session "draft").
  discriminate.
Defined.

Lemma answered_session_is_shown :
  chat_log (run sample_config (sample_inputs false None) sample_session) =
  Some (rendered_messages
          (trace sample_config (sample_inputs false None) sample_session)).
Proof.
  apply (page_shows_the_log sample_config (sample_inputs false None)
           sample_session).
  vm_compute. reflexivity.
Defined.

Lemma sample_answer_is_shown_after_rerun :
  let i := sample_request in
  let i' := sample_inputs false None in
  let shown := rendered_messages (trace sample_config i fresh) in
  let shown_next :=
    rendered_messages (trace sample_config i' (run sample_config i fresh)) in
  shown =
    default [welcome sample_config] (chat_log (fresh (ToolDefinition := string))) ++
    [mkMessage "user" "Research the latest developments in quantum computing"]
  /\ ((main sample_config i fresh).1 = Leave Rerun ->
      exists full_response,
        In (SessionAppend "messages" (mkMessage "assistant" full_response))
           (trace sample_config i fresh) /\
        shown_next = shown ++ [mkMessage "assistant" full_response])
  /\ (forall e, (main sample_config i fresh).1 = Leave (Uncaught e) ->
      shown_next = shown).
Proof.
  apply (rerun_shows_the_exchange sample_config sample_request
           (sample_inputs false None) fresh
           (sample_client_manager, sample_research_engine, sample_chat_engine)
           "Research the latest developments in quantum computing").
  - vm_compute. reflexivity.
  - vm_compute. reflexivity.
Defined.

Lemma keyless_status_still_serves :
  let w := mkWorld ∅
    (Some (sample_client_manager, sample_research_engine, sample_chat_engine)) [] in
  let w' := mkWorld ∅
    (Some (keyless_client_manager, sample_research_engine, sample_chat_engine)) [] in
  (main sample_config sample_request w).1 = (main sample_config sample_request w').1
  /\ session_state (run sample_config sample_request w) =
     session_state (run sample_config sample_request w')
  /\ engine_calls (trace sample_config sample_request w) =
     engine_calls (trace sample_config sample_request w')
  /\ rendered_messages (trace sample_config sample_request w) =
     rendered_messages (trace sample_config sample_request w').
Proof.
  apply (api_status_is_informational sample_config sample_request ∅ []
           sample_client_manager keyless_client_manager
           sample_research_engine sample_chat_engine).
  - exists true. vm_compute. reflexivity.
  - exists true. vm_compute. reflexivity.
  - exists false. vm_compute. reflexivity.
  - exists false. vm_compute. reflexivity.
Defined.

Lemma clear_wins_over_a_submitted_text :
  let i := sample_inputs true (Some "Hello") in
  let comps :=
    (sample_client_manager, sample_research_engine, sample_chat_engine) in
  (forall user_input,
     main sample_config (with_chat_input user_input i) sample_session =
     main sample_config i sample_session)
  /\ (main sample_config i sample_session).1 = Leave Rerun
  /\ session_state (run sample_config i sample_session) =
     <["messages" := []]> (session_state sample_session)
  /\ cache_resource (run sample_config i sample_session) = Some comps
  /\ Forall (fun e => serves_user e = false) (trace sample_config i sample_session)
  /\ rendered_messages (trace sample_config i sample_session) = [].
Proof.
  apply (clear_ends_the_run sample_config (sample_inputs true (Some "Hello"))
           sample_session
           (sample_client_manager, sample_research_engine, sample_chat_engine)).
  - vm_compute. reflexivity.
  - reflexivity.
Defined.


(** The log changes during a request before the engine is called: on a
    new session it is created, the welcome message and the user's
    message are appended, and only then comes the call; on a session
    with a log the user's message is appended before the call. *)
Lemma user_message_is_logged_before_the_call :
  log_events (trace sample_config sample_request fresh) =
  [SessionAssign "messages" [];
   SessionAppend "messages"
     (mkMessage "assistant"
        "Hello! Ask me anything, or ask me to research a topic.");
   SessionAppend "messages"
     (mkMessage "user" "Research the latest developments in quantum computing");
   StreamTextResponse
     [mkMessage "user" "Research the latest developments in quantum computing"]
     ["deep_research"] EmptyElement;
   SessionAppend "messages"
     (mkMessage "assistant"
        "Quantum error correction has moved from theory to hardware.")]
  /\ take 2
       (log_events
          (trace sample_config (sample_inputs false (Some "What is 2+2?"))
                 sample_session)) =
     [SessionAppend "messages" (mkMessage "user" "What is 2+2?");
      StreamTextResponse
        [mkMessage "user" "Research the latest developments in quantum computing";
         mkMessage "assistant"
           "Quantum error correction has moved from theory to hardware.";
         mkMessage "user" "What is 2+2?"]
        ["deep_research"] EmptyElement].
Proof. split; vm_compute; reflexivity. Qed.

Lemma log_events_at_sample_request :
  let i := sample_request in
  let w := fresh (ToolDefinition := string) in
  let cm := sample_client_manager in
  let re := sample_research_engine in
  let ce := sample_chat_engine in
  let u := "Research the latest developments in quantum computing" in
  let log := default [welcome sample_config] (chat_log w) in
  let user := mkMessage "user" u in
  let messages :=
    prepare_claude_messages ce log (content (default user (head log))) ++
    [user] in
  let tools := [get_tool_definition re] in
  let before_call :=
    initialize_elements sample_config (chat_log w) ++
    [SessionAppend "messages" user] in
  let call := StreamTextResponse messages tools EmptyElement in
  apply_writes before_call (session_state w) !! "messages" = Some (log ++ [user])
  /\ match stream_text_response ce messages tools EmptyElement with
     | Ok full_response =>
         let answer := mkMessage "assistant" full_response in
         log_events (trace sample_config i w) =
           before_call ++ [call; SessionAppend "messages" answer]
         /\ chat_log (run sample_config i w) = Some (log ++ [user; answer])
     | Raises _ =>
         log_events (trace sample_config i w) = before_call ++ [call]
         /\ chat_log (run sample_config i w) = Some (log ++ [user])
     end.
Proof.
  apply (log_events_of_a_request sample_config sample_request fresh
           sample_client_manager sample_research_engine sample_chat_engine
           "Research the latest developments in quantum computing").
  vm_compute. reflexivity.
Defined.

Lemma engine_failure_is_traced_to_the_call :
  let i :=
    inputs_with sample_client_manager failing_chat_engine (Some "Hello") in
  let w := fresh (ToolDefinition := string) in
  exists u,
    request_of i w =
      Some ((sample_client_manager, sample_research_engine,
             failing_chat_engine), u) /\
    let log := default [welcome sample_config] (chat_log w) in
    let user := mkMessage "user" u in
    let first := default user (head log) in
    stream_text_response failing_chat_engine
      (prepare_claude_messages failing_chat_engine log (content first) ++ [user])
      [get_tool_definition sample_research_engine] EmptyElement =
    Raises (OtherError "APIConnectionError" "Connection error.").
Proof.
  apply (log_accesses_never_raise sample_config
           (inputs_with sample_client_manager failing_chat_engine (Some "Hello"))
           fresh sample_client_manager sample_research_engine
           failing_chat_engine
           (OtherError "APIConnectionError" "Connection error.")).
  - reflexivity.
  - exists true. vm_compute. reflexivity.
  - exists true. vm_compute. reflexivity.
  - vm_compute. reflexivity.
Defined.

End PageExamples.

(** * Facts about the orchestration loop *)

Section OrchestratorFacts.
Import Orchestrator.

Implicit Types (conv : list ConversationMessage) (m : Machine).
Implicit Types (inv : ToolInvocation) (es : list Effect).

(** *** Conversations without a dangling invocation *)

Lemma no_dangling_snoc conv msg :
  no_dangling conv = true -> is_invocation msg = false ->
  no_dangling (conv ++ [msg]) = true.
Proof.
  unfold is_invocation. intros Hconv Hmsg.
  induction conv as [|x rest IH]; cbn in *.
  - destruct (content msg); done.
  - apply andb_true_iff in Hconv as [Hx Hrest].
    rewrite (IH Hrest), andb_true_r.
    destruct (content x); try done. destruct rest; [done|exact Hx].
Qed.

Lemma no_dangling_round conv inv text error :
  no_dangling conv = true ->
  no_dangling
    (conv ++ [mkConversationMessage assistant (Invocation inv)] ++
     [tool_result_message (mkToolResult (call_id inv) text error)]) = true.
Proof.
  intros Hconv. induction conv as [|x rest IH]; cbn in *.
  - by rewrite String.eqb_refl.
  - apply andb_true_iff in Hconv as [Hx Hrest].
    rewrite (IH Hrest), andb_true_r.
    destruct (content x); try done. destruct rest; [done|exact Hx].
Qed.

Lemma model_conversations_app es1 es2 :
  model_conversations (es1 ++ es2) =
  model_conversations es1 ++ model_conversations es2.
Proof. unfold model_conversations. by rewrite flat_map_app. Qed.

Lemma programming_errors_app es1 es2 :
  programming_errors (es1 ++ es2) =
  programming_errors es1 ++ programming_errors es2.
Proof. unfold programming_errors. by rewrite flat_map_app. Qed.

Lemma provider_requests_app es1 es2 :
  provider_requests (es1 ++ es2) =
  provider_requests es1 ++ provider_requests es2.
Proof. unfold provider_requests. by rewrite flat_map_app. Qed.

Lemma deltas_effects (deltas : list string) :
  model_conversations (map TextDelta deltas) = [] /\
  programming_errors (map TextDelta deltas) = [] /\
  provider_requests (map TextDelta deltas) = [].
Proof. by induction deltas. Qed.

Section Loop.
Variable env : Environment.
Variable system_prompt : string.
Variable config : ResearchConfig.

Lemma model_turn_effects attempt conv :
  let es := (model_turn env system_prompt attempt conv).1 in
  model_conversations es = [conv] /\ programming_errors es = [] /\
  provider_requests es = [].
Proof.
  unfold model_turn. destruct (streamTurn _ _) as [deltas r].
  destruct (deltas_effects deltas) as (H1 & H2 & H3).
  unfold model_conversations, programming_errors, provider_requests in *.
  cbn. by rewrite H1, H2, H3.
Qed.

(** The effects of the two transitions, by the calls among them. *)
Lemma await_model_effects m :
  exists es,
    effects (await_model env system_prompt m) = effects m ++ es /\
    Forall (fun conv => no_dangling conv = true) (model_conversations es) /\
    provider_requests es = [] /\
    (no_dangling (conversation m) = true -> programming_errors es = []).
Proof.
  unfold await_model.
  destruct (no_dangling (conversation m)) eqn:Hguard; cbn [negb].
  2: { eexists. split; [reflexivity|]. by repeat split. }
  pose proof (model_turn_effects (model_calls m) (conversation m)) as H1.
  pose proof (model_turn_effects (S (model_calls m)) (conversation m)) as H2.
  destruct (model_turn _ _ (model_calls m) _) as [es1 r1].
  destruct (model_turn _ _ (S (model_calls m)) _) as [es2 r2].
  cbn [fst] in H1, H2. cbv zeta in H1, H2.
  destruct H1 as (Hc1 & He1 & Hp1), H2 as (Hc2 & He2 & Hp2).
  assert (Forall (fun conv => no_dangling conv = true) [conversation m])
    as Hconv by by apply Forall_singleton.
  destruct r1 as [[text|inv]|f| |partial];
    [| | |destruct r2 as [[text|inv]|f| |partial]|];
    cbn -[Nat.ltb MAX_TOOL_ROUNDS];
    try destruct (rounds m <? MAX_TOOL_ROUNDS)%nat;
    cbn [effects finish];
    (eexists; split; [reflexivity|]);
    rewrite ?model_conversations_app, ?provider_requests_app,
      ?programming_errors_app, ?Hc1, ?Hc2, ?He1, ?He2, ?Hp1, ?Hp2;
    repeat split; try done; apply Forall_app; by split.
Qed.

Lemma execute_tool_effects m :
  exists es,
    effects (execute_tool env config m) = effects m ++ es /\
    model_conversations es = [] /\
    provider_requests es =
      match pending m with
      | Some inv => [research_request config inv]
      | None => []
      end /\
    (is_Some (pending m) -> programming_errors es = []).
Proof.
  unfold execute_tool. destruct (pending m) as [inv|].
  - exists [ProviderCall (research_request config inv)].
    split; [by destruct (research env _)|]. by repeat split.
  - eexists. split; [reflexivity|]. repeat split. by intros [? [=]].
Qed.

(** *** The loop keeps invocations resolved *)

Lemma resolved_await_model m :
  state m = AWAITING_MODEL -> resolved m ->
  resolved (await_model env system_prompt m).
Proof.
  unfold resolved. intros Hstate Hnow. rewrite Hstate in Hnow.
  unfold await_model. rewrite Hnow. cbn [negb].
  destruct (model_turn _ _ (model_calls m) _) as [es1 r1].
  destruct (model_turn _ _ (S (model_calls m)) _) as [es2 r2].
  destruct r1 as [[text|inv]|f| |partial]; cbn -[Nat.ltb MAX_TOOL_ROUNDS];
    try done.
  - destruct (rounds m <? MAX_TOOL_ROUNDS)%nat; cbn; [|done].
    by exists (conversation m), inv.
  - destruct r2 as [[text|inv]|f| |partial]; cbn -[Nat.ltb MAX_TOOL_ROUNDS];
      try done.
    destruct (rounds m <? MAX_TOOL_ROUNDS)%nat; cbn; [|done].
    by exists (conversation m), inv.
Qed.

Lemma resolved_execute_tool m :
  state m = EXECUTING_TOOL -> resolved m ->
  resolved (execute_tool env config m).
Proof.
  unfold resolved. intros Hstate Hnow. rewrite Hstate in Hnow.
  destruct Hnow as (conv & inv & Hconv & Hpending & Hdangling).
  unfold execute_tool. rewrite Hpending.
  destruct (research env _) as [text|diagnostic|]; cbn; try done.
  - rewrite Hconv, <- app_assoc. by apply no_dangling_round.
  - rewrite Hconv, <- app_assoc. by apply no_dangling_round.
Qed.

Lemma resolved_step m : resolved m -> resolved (step env system_prompt config m).
Proof.
  intros H. unfold step. destruct (state m) eqn:Hstate; try done.
  - by apply resolved_await_model.
  - by apply resolved_execute_tool.
Qed.

(** The effects of a whole run. *)
Lemma run_effects fuel m :
  exists es,
    effects (run env system_prompt config fuel m) = effects m ++ es /\
    Forall (fun conv => no_dangling conv = true) (model_conversations es) /\
    (resolved m -> programming_errors es = []).
Proof.
  revert m. induction fuel as [|fuel IH]; intros m; cbn.
  { exists []. by rewrite app_nil_r. }
  destruct (terminal (state m)) eqn:Hterminal.
  { exists []. by rewrite app_nil_r. }
  destruct (IH (step env system_prompt config m)) as (es2 & -> & Hes2 & Herr2).
  assert (exists es1,
    effects (step env system_prompt config m) = effects m ++ es1 /\
    Forall (fun conv => no_dangling conv = true) (model_conversations es1) /\
    (resolved m -> programming_errors es1 = [])) as (es1 & -> & Hes1 & Herr1).
  { unfold step, resolved. destruct (state m) eqn:Hstate; try done.
    - destruct (await_model_effects m) as (es & -> & ? & ? & ?). by exists es.
    - destruct (execute_tool_effects m) as (es & -> & Hc & _ & He). exists es.
      rewrite Hc. repeat split; [done|].
      intros (conv & inv & _ & Hpending & _). apply He. by rewrite Hpending. }
  exists (es1 ++ es2). rewrite <- app_assoc. split; [done|].
  rewrite model_conversations_app, programming_errors_app. split.
  - apply Forall_app. by split.
  - intros Hm. rewrite Herr1, Herr2; [done| |done]. by apply resolved_step.
Qed.

(** *** Requests to the provider stay within the bounds *)

Lemma optional_integer_in_range key range object z :
  optional_integer key range object = inr (Some z) -> in_range range z = true.
Proof.
  unfold optional_integer.
  destruct (field key object) as [[s|z'|]|]; try done.
  destruct (in_range range z') eqn:H; [|done]. by intros [= <-].
Qed.

Lemma match_schema_in_range object args :
  match_schema object = inr args -> arguments_in_range args.
Proof.
  unfold match_schema. destruct (field "query" object) as [[q|?|]|]; try done.
  destruct (optional_integer "max_depth" _ _) as [|depth] eqn:Hdepth; [done|].
  destruct (optional_integer "time_limit_seconds" _ _) as [|time] eqn:Htime;
    [done|].
  destruct (optional_integer "max_urls" _ _) as [|urls] eqn:Hurls; [done|].
  intros [= <-]. unfold arguments_in_range. cbn.
  split; [|split]; intros x ->;
    match goal with
    | H : optional_integer _ _ _ = inr (Some x) |- _ =>
        apply optional_integer_in_range in H;
        apply andb_true_iff in H as [?%Z.leb_le ?%Z.leb_le]; cbn in *; lia
    end.
Qed.

Lemma assemble_in_range events interruption st deltas inv :
  assemble (parse_json env) events interruption st =
    (deltas, Resolved (ToolCall inv)) ->
  arguments_in_range (arguments inv).
Proof.
  revert st deltas.
  induction events as [|e events IH]; intros st deltas; cbn.
  - by destruct interruption.
  - destruct e as [text|name call_id|fragment| |].
    + destruct (assemble _ _ _ _) as [deltas' r] eqn:H. intros [= _ ->].
      by eapply IH.
    + destruct (pending_tool_call st); [done|]. apply IH.
    + destruct (pending_tool_call st); [|done]. apply IH.
    + destruct (pending_tool_call st) as [p|]; [|done].
      unfold complete_tool_call. destruct (negb _); [done|].
      destruct (parse_json env _) as [object|]; [|done].
      destruct (match_schema object) as [|args] eqn:H; [done|].
      intros [= _ <-]. by apply match_schema_in_range in H.
    + by destruct (pending_tool_call st).
Qed.

Lemma model_turn_in_range attempt conv es inv :
  model_turn env system_prompt attempt conv = (es, Resolved (ToolCall inv)) ->
  arguments_in_range (arguments inv).
Proof.
  unfold model_turn, streamTurn.
  destruct (assemble _ _ _ _) as [deltas r] eqn:H. intros [= _ ->].
  by eapply assemble_in_range.
Qed.

Lemma research_request_within_bounds inv :
  invalid_field config = None -> arguments_in_range (arguments inv) ->
  within_bounds (research_request config inv).
Proof.
  unfold invalid_field, within_bounds, research_request, in_range.
  intros Hconfig (Hdepth & Htime & Hurls). cbn in *.
  destruct (_ && _) eqn:H1 in Hconfig; [|done].
  destruct (_ && _) eqn:H2 in Hconfig; [|done].
  destruct (_ && _) eqn:H3 in Hconfig; [|done].
  apply andb_true_iff in H1 as [?%Z.leb_le ?%Z.leb_le].
  apply andb_true_iff in H2 as [?%Z.leb_le ?%Z.leb_le].
  apply andb_true_iff in H3 as [?%Z.leb_le ?%Z.leb_le].
  destruct (arg_max_depth _) as [d|]; [specialize (Hdepth d eq_refl)|];
  destruct (arg_time_limit_seconds _) as [t|]; [specialize (Htime t eq_refl)| |
    specialize (Htime t eq_refl)|];
  destruct (arg_max_urls _) as [u|]; try specialize (Hurls u eq_refl);
  cbn; lia.
Qed.

Lemma pending_in_range_step m :
  pending_in_range m -> pending_in_range (step env system_prompt config m).
Proof.
  unfold step, pending_in_range. destruct (state m) eqn:Hstate; try done.
  - intros _. unfold await_model.
    destruct (negb _); [done|].
    destruct (model_turn _ _ (model_calls m) _) as [es1 r1] eqn:H1.
    destruct (model_turn _ _ (S (model_calls m)) _) as [es2 r2] eqn:H2.
    destruct r1 as [[text|inv]|f| |partial];
      [| | |destruct r2 as [[text|inv]|f| |partial]|];
      cbn -[Nat.ltb MAX_TOOL_ROUNDS]; try done;
      destruct (rounds m <? MAX_TOOL_ROUNDS)%nat; cbn; try done;
      intros ? [= <-].
    + by eapply model_turn_in_range.
    + by eapply model_turn_in_range.
  - intros _. unfold execute_tool.
    destruct (pending m); [|done].
    by destruct (research env _).
Qed.

Lemma run_within_bounds fuel m :
  invalid_field config = None -> pending_in_range m ->
  exists es,
    effects (run env system_prompt config fuel m) = effects m ++ es /\
    Forall within_bounds (provider_requests es).
Proof.
  intros Hconfig. revert m. induction fuel as [|fuel IH]; intros m Hm; cbn.
  { exists []. by rewrite app_nil_r. }
  destruct (terminal (state m)) eqn:Hterminal.
  { exists []. by rewrite app_nil_r. }
  destruct (IH (step env system_prompt config m)) as (es2 & -> & Hes2);
    [by apply pending_in_range_step|].
  assert (exists es1,
    effects (step env system_prompt config m) = effects m ++ es1 /\
    Forall within_bounds (provider_requests es1)) as (es1 & -> & Hes1).
  { unfold step. destruct (state m) eqn:Hstate; try done.
    - destruct (await_model_effects m) as (es & -> & _ & Hp & _). exists es.
      by rewrite Hp.
    - destruct (execute_tool_effects m) as (es & -> & _ & Hp & _). exists es.
      split; [done|]. rewrite Hp.
      destruct (pending m) as [inv|] eqn:Hpending; [|done].
      apply Forall_singleton.
      apply research_request_within_bounds; [done|]. by apply Hm. }
  exists (es1 ++ es2). rewrite <- app_assoc. split; [done|].
  rewrite provider_requests_app. apply Forall_app. by split.
Qed.

(** *** Single steps *)

Lemma run_step fuel m :
  terminal (state m) = false ->
  run env system_prompt config (S fuel) m =
  run env system_prompt config fuel (step env system_prompt config m).
Proof. intros H. cbn [run]. by rewrite H. Qed.

Lemma run_terminal_state fuel m :
  terminal (state m) = true -> run env system_prompt config fuel m = m.
Proof. intros H. destruct fuel; cbn [run]; [done|]. by rewrite H. Qed.

Lemma await_model_text c p r n t es deltas text :
  no_dangling c = true ->
  streamTurn (parse_json env) (model env n system_prompt c deep_research) =
    (deltas, Resolved (TerminalText text)) ->
  step env system_prompt config (mkMachine AWAITING_MODEL c p r n t es) =
  mkMachine DONE c None r (S n) text
    (es ++ ModelCall system_prompt c deep_research :: map TextDelta deltas).
Proof.
  intros Hc Hturn. unfold step, await_model, model_turn. cbn [state conversation model_calls].
  by rewrite Hc, Hturn.
Qed.

Lemma await_model_call c p r n t es deltas inv :
  no_dangling c = true -> (r < MAX_TOOL_ROUNDS)%nat ->
  streamTurn (parse_json env) (model env n system_prompt c deep_research) =
    (deltas, Resolved (ToolCall inv)) ->
  step env system_prompt config (mkMachine AWAITING_MODEL c p r n t es) =
  mkMachine EXECUTING_TOOL
    (c ++ [mkConversationMessage assistant (Invocation inv)]) (Some inv) r
    (S n) t
    (es ++ ModelCall system_prompt c deep_research :: map TextDelta deltas).
Proof.
  intros Hc Hr Hturn. unfold step, await_model, model_turn.
  cbn [state conversation model_calls]. rewrite Hc, Hturn.
  cbn -[Nat.ltb MAX_TOOL_ROUNDS]. apply Nat.ltb_lt in Hr. by rewrite Hr.
Qed.

Lemma execute_tool_error c inv r n t es diagnostic :
  research env (research_request config inv) = provider_error diagnostic ->
  step env system_prompt config (mkMachine EXECUTING_TOOL c (Some inv) r n t es) =
  mkMachine AWAITING_MODEL
    (c ++ [tool_result_message
             (mkToolResult (call_id inv) (diagnostic_of diagnostic) true)])
    None (S r) n t (es ++ [ProviderCall (research_request config inv)]).
Proof.
  intros Hresearch. unfold step, execute_tool. cbn [state pending].
  by rewrite Hresearch.
Qed.

(** *** The loop ends *)

Lemma within_rounds_step m :
  within_rounds m -> within_rounds (step env system_prompt config m).
Proof.
  unfold step, within_rounds.
  destruct (state m) eqn:Hstate; try (by rewrite Hstate).
  - intros Hm. unfold await_model.
    destruct (negb _); [cbn; lia|].
    destruct (model_turn _ _ (model_calls m) _) as [es1 r1].
    destruct (model_turn _ _ (S (model_calls m)) _) as [es2 r2].
    destruct r1 as [[text|inv]|f| |partial];
      [| | |destruct r2 as [[text|inv]|f| |partial]|];
      cbn -[Nat.ltb MAX_TOOL_ROUNDS]; try lia;
      destruct (rounds m <? MAX_TOOL_ROUNDS)%nat eqn:Hlt; cbn; try lia;
      by apply Nat.ltb_lt in Hlt.
  - intros Hm. unfold execute_tool.
    destruct (pending m); [|cbn; lia].
    destruct (research env _); cbn; lia.
Qed.

Lemma steps_left_step m :
  within_rounds m -> terminal (state m) = false ->
  (steps_left (step env system_prompt config m) < steps_left m)%nat.
Proof.
  unfold step, within_rounds, steps_left.
  destruct (state m) eqn:Hstate; try done; intros Hm _.
  - unfold await_model.
    destruct (negb _); [cbn -[Nat.mul Nat.sub]; lia|].
    destruct (model_turn _ _ (model_calls m) _) as [es1 r1].
    destruct (model_turn _ _ (S (model_calls m)) _) as [es2 r2].
    destruct r1 as [[text|inv]|f| |partial];
      [| | |destruct r2 as [[text|inv]|f| |partial]|];
      cbn -[Nat.ltb MAX_TOOL_ROUNDS Nat.mul Nat.sub]; try lia;
      destruct (rounds m <? MAX_TOOL_ROUNDS)%nat; cbn -[Nat.mul Nat.sub]; lia.
  - unfold execute_tool.
    destruct (pending m); [|cbn -[Nat.mul Nat.sub]; lia].
    destruct (research env _); cbn -[Nat.mul Nat.sub]; lia.
Qed.

Lemma run_terminal fuel m :
  within_rounds m -> (steps_left m <= fuel)%nat ->
  terminal (state (run env system_prompt config fuel m)) = true.
Proof.
  revert m. induction fuel as [|fuel IH]; intros m Hm Hfuel; cbn.
  - unfold steps_left in Hfuel. unfold within_rounds in Hm.
    destruct (state m); cbn -[Nat.mul Nat.sub] in *; try done; lia.
  - destruct (terminal (state m)) eqn:Hterminal; [done|].
    apply IH; [by apply within_rounds_step|].
    pose proof (steps_left_step m Hm Hterminal). lia.
Qed.

End Loop.

Lemma orchestrate_terminal env priorMessages systemPrompt newUserMessage config :
  terminal (state (orchestrate env priorMessages systemPrompt newUserMessage
                               config)) = true.
Proof.
  unfold orchestrate. destruct (invalid_field config); [done|].
  apply run_terminal; cbn; lia.
Qed.

(** C2: no dangling invocation reaches the model.  Every conversation
    the loop passes to the model, on any turn of any request, has each
    tool invocation followed at once by the result with its [call_id];
    and when the prior messages are in that shape, the loop keeps them
    so by itself, never stopping on the programming error. *)
Theorem no_dangling_invocation_reaches_the_model
    env priorMessages systemPrompt newUserMessage config :
  let m := orchestrate env priorMessages systemPrompt newUserMessage config in
  Forall (fun conv => no_dangling conv = true)
         (model_conversations (effects m))
  /\ (no_dangling priorMessages = true -> programming_errors (effects m) = []).
Proof.
  cbv zeta. unfold orchestrate.
  destruct (invalid_field config); [by split|].
  match goal with
  | |- context [run ?e ?s ?c ?f ?m] =>
      destruct (run_effects e s c f m) as (es & -> & Hes & Herr)
  end.
  cbn [effects app]. split; [done|]. intros Hprior. apply Herr.
  unfold resolved. cbn. by apply no_dangling_snoc.
Qed.

(** C3: the bounds hold where the tool is invoked.  Every request the
    loop sends to the research provider has its depth in 1..10, its time
    limit in 30..300 and its URL cap in 1..100; and a configuration out
    of these ranges is rejected at the entry point, the request failing
    with a note that names the field and with no call made.  The loop
    itself does not check the configuration again. *)
Theorem provider_requests_within_bounds
    env priorMessages systemPrompt newUserMessage config :
  let m := orchestrate env priorMessages systemPrompt newUserMessage config in
  Forall within_bounds (provider_requests (effects m))
  /\ (valid_config config = false ->
      exists field,
        invalid_field config = Some field /\
        state m = FAILED /\ final_text m = invalid_config_note field /\
        effects m = []).
Proof.
  cbv zeta. unfold orchestrate, valid_config.
  destruct (invalid_field config) as [field|] eqn:Hconfig.
  - split; [constructor|]. intros _. by exists field.
  - split; [|done].
    match goal with
    | |- context [run ?e ?s ?c ?f ?m] =>
        destruct (run_within_bounds e s c f m Hconfig) as (es & -> & Hes)
    end; [by intros ? [=]|done].
Qed.

(** *** A failed provider call *)

Lemma length_substring (n : nat) (s : string) :
  (String.length (String.substring 0 n s) <= n)%nat.
Proof.
  revert s. induction n as [|n IH]; intros [|a s]; cbn; try lia.
  specialize (IH s). lia.
Qed.

Lemma length_append (s1 s2 : string) :
  String.length (s1 +:+ s2) = (String.length s1 + String.length s2)%nat.
Proof.
  induction s1 as [|a s1 IH]; [done|].
  change (String.length (String a s1 +:+ s2))
    with (S (String.length (s1 +:+ s2))).
  by rewrite IH.
Qed.

Lemma diagnostic_short (provider_message : string) :
  (0 < String.length (diagnostic_of provider_message) <=
   17 + DIAGNOSTIC_LENGTH)%nat.
Proof.
  unfold diagnostic_of. rewrite length_append.
  pose proof (length_substring DIAGNOSTIC_LENGTH provider_message).
  change (String.length "Research failed: ") with 17%nat. lia.
Qed.

(** C5: a failed provider call is folded back.  From [EXECUTING_TOOL], a
    provider error makes the step append the result of the pending call
    with [is_error] set and a short diagnostic, and go back to
    [AWAITING_MODEL].  And a request whose tool call fails this way and
    whose model then answers in text ends [DONE] with that text, the
    model having seen the failed result. *)
Theorem provider_failure_is_folded_back env systemPrompt config :
  (forall m inv diagnostic,
     state m = EXECUTING_TOOL -> pending m = Some inv ->
     research env (research_request config inv) = provider_error diagnostic ->
     let m' := step env systemPrompt config m in
     state m' = AWAITING_MODEL /\
     conversation m' =
       conversation m ++
       [tool_result_message
          (mkToolResult (call_id inv) (diagnostic_of diagnostic) true)] /\
     (0 < String.length (diagnostic_of diagnostic) <=
      17 + DIAGNOSTIC_LENGTH)%nat)
  /\ (forall priorMessages newUserMessage inv diagnostic text deltas1 deltas2,
        let conv :=
          priorMessages ++
          [mkConversationMessage user (Text newUserMessage)] in
        let conv' :=
          conv ++
          [mkConversationMessage assistant (Invocation inv);
           tool_result_message
             (mkToolResult (call_id inv) (diagnostic_of diagnostic) true)] in
        invalid_field config = None ->
        no_dangling priorMessages = true ->
        streamTurn (parse_json env) (model env 0 systemPrompt conv deep_research)
          = (deltas1, Resolved (ToolCall inv)) ->
        research env (research_request config inv) = provider_error diagnostic ->
        streamTurn (parse_json env) (model env 1 systemPrompt conv' deep_research)
          = (deltas2, Resolved (TerminalText text)) ->
        let m := orchestrate env priorMessages systemPrompt newUserMessage
                             config in
        state m = DONE /\ final_text m = text /\
        model_conversations (effects m) = [conv; conv']).
Proof.
  split.
  - intros m inv diagnostic Hstate Hpending Hresearch. cbv zeta.
    unfold step, execute_tool. rewrite Hstate, Hpending, Hresearch. cbn.
    repeat split; apply diagnostic_short.
  - intros priorMessages newUserMessage inv diagnostic text deltas1 deltas2.
    cbv zeta. intros Hconfig Hprior Hturn1 Hresearch Hturn2.
    unfold orchestrate. rewrite Hconfig.
    assert (no_dangling
              (priorMessages ++
               [mkConversationMessage user (Text newUserMessage)]) = true)
      as Hconv by by apply no_dangling_snoc.
    pose proof (no_dangling_round _ inv (diagnostic_of diagnostic) true Hconv)
      as Hconv'.
    change FUEL with 11%nat.
    rewrite run_step by done.
    erewrite await_model_call by (done || (unfold MAX_TOOL_ROUNDS; lia)).
    rewrite run_step by done.
    erewrite execute_tool_error by done.
    rewrite run_step by done.
    rewrite <- app_assoc.
    erewrite await_model_text by done.
    rewrite run_terminal_state by done.
    cbn [state final_text effects]. repeat split.
    unfold model_conversations. rewrite !flat_map_app. cbn.
    destruct (deltas_effects deltas1) as (H1 & _).
    destruct (deltas_effects deltas2) as (H2 & _).
    unfold model_conversations in H1, H2. by rewrite H1, H2.
Qed.

End OrchestratorFacts.

(** ** The loop at sample inputs *)

Section OrchestratorExamples.

Import Orchestrator.

Lemma failing_provider_keeps_invocations_resolved :
  programming_errors
    (effects (orchestrate failing_provider [] "You are a research assistant."
                "What is new in quantum error correction?"
                sample_research_config)) = [].
Proof.
  exact (proj2 (no_dangling_invocation_reaches_the_model failing_provider []
                  "You are a research assistant."
                  "What is new in quantum error correction?"
                  sample_research_config) eq_refl).
Defined.

Lemma depth_eleven_is_rejected :
  exists field,
    invalid_field (mkResearchConfig 11 180 20) = Some field /\
    state (orchestrate failing_provider [] "You are a research assistant."
             "What is new in quantum error correction?"
             (mkResearchConfig 11 180 20)) = FAILED /\
    final_text (orchestrate failing_provider [] "You are a research assistant."
                  "What is new in quantum error correction?"
                  (mkResearchConfig 11 180 20)) = invalid_config_note field /\
    effects (orchestrate failing_provider [] "You are a research assistant."
               "What is new in quantum error correction?"
               (mkResearchConfig 11 180 20)) = [].
Proof.
  exact (proj2 (provider_requests_within_bounds failing_provider []
                  "You are a research assistant."
                  "What is new in quantum error correction?"
                  (mkResearchConfig 11 180 20)) eq_refl).
Defined.

Lemma model_recovers_from_failed_research :
  let m := orchestrate failing_provider [] "You are a research assistant."
             "What is new in quantum error correction?"
             sample_research_config in
  state m = DONE /\
  final_text m =
    "I could not reach the research tool. From what I know, surface codes lead the field." /\
  model_conversations (effects m) =
    [[mkConversationMessage user
        (Text "What is new in quantum error correction?")];
     [mkConversationMessage user
        (Text "What is new in quantum error correction?");
      mkConversationMessage assistant (Invocation sample_invocation);
      tool_result_message
        (mkToolResult "call_1"
           "Research failed: HTTP 502 from the research provider" true)]].
Proof.
  exact (proj2 (provider_failure_is_folded_back failing_provider
                  "You are a research assistant." sample_research_config)
           [] "What is new in quantum error correction?" sample_invocation
           "HTTP 502 from the research provider"
           "I could not reach the research tool. From what I know, surface codes lead the field."
           ["Let me look that up. "]
           ["I could not reach the research tool. ";
            "From what I know, surface codes lead the field."]
           eq_refl eq_refl eq_refl eq_refl eq_refl).
Defined.

End OrchestratorExamples.
